(** * telegram-bot-log-stream: the update-delivery core of [TelegramLog]

    A shallow embedding of [src/index.js].  The instance's closure
    variables ([_updatesOffset], [webhook], [polling], [inFlight], ...)
    become the fields of a state record; every function of the source
    is an action of a small state-and-trace monad whose trace lists,
    in order, the calls the code makes on its collaborators (the
    Telegram API client, the webhook listener, the Duplex base class,
    the timer).  Promises are modelled by the continuations they hold:
    a callback runs when the environment reports that the call it
    waits for has settled. *)

From Stdlib Require Import ZArith List String Ascii Bool Lia DecimalString.
Import ListNotations.
Local Open Scope string_scope.
Local Open Scope list_scope.
Local Open Scope Z_scope.

(** ** JavaScript values the code inspects *)

Module Js.

(** Primitive values.  Numbers are the integer-valued doubles the code
    meets (update ids, chat ids, ports, buffer sizes), given by their
    value. *)
Inductive value : Type :=
| Undefined
| Null
| Bool (b : bool)
| Num (n : Z)
| Str (s : string).

(** ToBoolean. *)
Definition truthy (v : value) : bool :=
  match v with
  | Undefined | Null => false
  | Bool b => b
  | Num n => negb (n =? 0)
  | Str s => negb (String.eqb s "")
  end.

(** [a === b] on primitives. *)
Definition strict_eq (a b : value) : bool :=
  match a, b with
  | Undefined, Undefined => true
  | Null, Null => true
  | Bool x, Bool y => Bool.eqb x y
  | Num x, Num y => x =? y
  | Str x, Str y => String.eqb x y
  | _, _ => false
  end.

(** [a || b] and [a && b]: they return one of their operands. *)
Definition or (a b : value) : value := if truthy a then a else b.
Definition and (a b : value) : value := if truthy a then b else a.

(** [v == null]. *)
Definition loose_eq_null (v : value) : bool :=
  match v with
  | Undefined | Null => true
  | _ => false
  end.

(** [v == ''] on primitives: a boolean or a number is compared with
    ToNumber('') = 0, a string with the empty string; [undefined] and
    [null] are loosely equal only to each other. *)
Definition loose_eq_empty (v : value) : bool :=
  match v with
  | Undefined | Null => false
  | Bool b => negb b
  | Num n => n =? 0
  | Str s => String.eqb s ""
  end.

(** Rounding of an integer to the nearest double, ties to the even
    significand: integers below 2^53 in magnitude are doubles; above,
    only 53 leading bits are kept.  (Overflow to infinity, beyond
    2^1024, is left out.) *)
Definition round53 (m : Z) : Z :=
  let a := Z.abs m in
  if a <? 2 ^ 53 then m
  else
    let ulp := 2 ^ (Z.log2 a - 52) in
    let q := a / ulp in
    let r := a mod ulp in
    let q' := if 2 * r <? ulp then q
              else if ulp <? 2 * r then q + 1
              else if Z.even q then q else q + 1 in
    Z.sgn m * (q' * ulp).

(** [a + b] and [a - b] on numbers: the exact result, rounded. *)
Definition add (a b : Z) : Z := round53 (a + b).
Definition sub (a b : Z) : Z := round53 (a - b).

(** [Number.isSafeInteger]. *)
Definition safe_integer (n : Z) : Prop := - 2 ^ 53 < n < 2 ^ 53.

End Js.

(** ** Objects of the Telegram API *)

Module Api.

Record Chat : Type := { id : Js.value }.

(** [text] is [None] when [message.text == null]. *)
Record Message : Type := { chat : Chat; text : option string }.

(** [message] is [None] when [update.message == null]. *)
Record Update : Type := { update_id : Z; message : option Message }.

(** The reason a rejected promise carries. *)
Definition Error : Type := string.

End Api.

(** ** The readable side of the Duplex base class *)

Module Stream.

(** The fields of [_readableState] that [_read] looks at. *)
Record state : Type := {
  highWaterMark : Z;
  length : Z;
  ended : bool
}.

(** A stream built with [objectMode: true]: sixteen objects unless
    the options say otherwise.  The constructor refuses a negative
    [highWaterMark]. *)
Definition accepts (hwm : option Z) : bool :=
  match hwm with Some n => 0 <=? n | None => true end.

Definition create (hwm : option Z) : state :=
  {| highWaterMark := match hwm with Some n => n | None => 16 end;
     length := 0;
     ended := false |}.

End Stream.

(** The primitives a payload can be or convert to: the values above, a
    BigInt, a number that is not an integer (a fraction, NaN, an
    infinity; given by its JSON text), a symbol. *)
Inductive Primitive : Type :=
| Value (v : Js.value)
| BigInt (n : Z)
| Other_number (json : string)
| Symbol.

Coercion Value : Js.value >-> Primitive.

(** What [JSON.stringify] makes of a value: a text, [undefined] (for
    [undefined], a symbol, a function), or an exception (for a BigInt,
    a circular structure, a [toJSON] that throws). *)
Inductive Serialized : Type :=
| Text (t : string)
| No_text
| Stringify_throws.

(** A payload handed to [_write].  The stream is in object mode, so
    any value arrives as it was written.  A non-primitive value is
    represented by what the code observes of it: the primitive its
    ToPrimitive conversion yields (the empty string for an empty array,
    [[object Object]] for a plain object, 0 for [new Number(0)]; [None]
    when the conversion throws), which decides [chunk == ''], and what
    [JSON.stringify] makes of it. *)
Inductive Chunk : Type :=
| CPrim (p : Primitive)
| CObj (toPrimitive : option Primitive) (json : Serialized).

(** ** Configuration *)

Module Config.

(** [options.webhook]: a primitive (absent, a host name, a port) or
    an object [{hostname, port, certificate}]. *)
Inductive Webhook : Type :=
| WPrim (v : Js.value)
| WObject (hostname port certificate : Js.value).

Record Options : Type := {
  webhook : Webhook;
  certificate : Js.value;
  highWaterMark : option Z
}.

(** [{}]. *)
Definition empty : Options :=
  {| webhook := WPrim Js.Undefined;
     certificate := Js.Undefined;
     highWaterMark := None |}.

(** The first argument of the constructor: a value, or a plain object
    [{token, chat_id, options}]. *)
Inductive TokenArg : Type :=
| TokenValue (v : Js.value)
| TokenObject (token chat_id : Js.value) (options : option Options).

(** The value of [webhook.port || webhook]. *)
Inductive Port : Type :=
| PortValue (v : Js.value)
| PortIsWebhookObject.

End Config.

(** ** What the instance does to the outside *)

Inductive ErrorData : Type :=
| OfUpdate (update : Api.Update)
| OfMessage (message : Api.Message).

Inductive Effect : Type :=
| Emit_error (message : string) (data : ErrorData)
  (** [emitError]: [self.emit('error', error)] with [error.data = data] *)
| Emit_error_from (error : Api.Error)
  (** [self.emit('error', error)] with a collaborator's error *)
| Push (chunk : option string)
  (** [self.push(chunk)]; [None] is [push(null)], end of data *)
| Api_new (token : Js.value)
| Api_getUpdates (offset limit timeout : Z)
| Api_sendMessage (chat_id : Js.value) (text : option string)
  (** [text] is [None] when [JSON.stringify] gave [undefined] *)
| Api_setWebhook (url : option string) (certificate : Js.value)
| SetTimeout_read (delay : Z)
| WebhookPost_create (webhook : Config.Webhook)
| WebhookPost_close
| Done (error : option Api.Error)
  (** the completion callback of [_write] *)
| Uncaught_TypeError
| Thrown_from_write
  (** an exception leaves [_write] *).

(** Calls that reach the network. *)
Definition is_network (e : Effect) : bool :=
  match e with
  | Api_getUpdates _ _ _ | Api_sendMessage _ _ | Api_setWebhook _ _
  | WebhookPost_create _ => true
  | _ => false
  end.

(** ** Instance state *)

(** The variable [webhook]: what [options.webhook] held when that was
    falsy, later [null], or the listener [WebhookPost] returned. *)
Inductive WebhookVar : Type :=
| WRaw (v : Js.value)
| WListener.

(** The variable [polling]. *)
Inductive PollingVar : Type :=
| PUndefined
| PNull
| PPromise.

(** A function given to [then]. *)
Inductive Callback : Type :=
| Cb_end
| Cb_closeWebhook.

(** The promise [polling] refers to. *)
Inductive Promise : Type :=
| Pending (reactions : list Callback)
| Settled.

Record State : Type := {
  chat_id : Js.value;
  certificate : Js.value;
  _updatesOffset : Z;
  webhook : WebhookVar;
  polling : PollingVar;
  inFlight : bool;
  _readableState : Stream.state;
  (** the promise made by the latest [getUpdates] chain *)
  fetch : option Promise;
  (** the reactions of the [setWebhook({certificate})] calls that have
      not settled yet, oldest first *)
  unregistering : list Callback
}.

Definition set_updatesOffset (n : Z) (s : State) : State :=
  {| chat_id := chat_id s; certificate := certificate s;
     _updatesOffset := n; webhook := webhook s; polling := polling s;
     inFlight := inFlight s; _readableState := _readableState s;
     fetch := fetch s; unregistering := unregistering s |}.

Definition set_webhook (w : WebhookVar) (s : State) : State :=
  {| chat_id := chat_id s; certificate := certificate s;
     _updatesOffset := _updatesOffset s; webhook := w; polling := polling s;
     inFlight := inFlight s; _readableState := _readableState s;
     fetch := fetch s; unregistering := unregistering s |}.

Definition set_polling (p : PollingVar) (s : State) : State :=
  {| chat_id := chat_id s; certificate := certificate s;
     _updatesOffset := _updatesOffset s; webhook := webhook s; polling := p;
     inFlight := inFlight s; _readableState := _readableState s;
     fetch := fetch s; unregistering := unregistering s |}.

Definition set_inFlight (b : bool) (s : State) : State :=
  {| chat_id := chat_id s; certificate := certificate s;
     _updatesOffset := _updatesOffset s; webhook := webhook s;
     polling := polling s; inFlight := b;
     _readableState := _readableState s;
     fetch := fetch s; unregistering := unregistering s |}.

Definition set_readableState (r : Stream.state) (s : State) : State :=
  {| chat_id := chat_id s; certificate := certificate s;
     _updatesOffset := _updatesOffset s; webhook := webhook s;
     polling := polling s; inFlight := inFlight s; _readableState := r;
     fetch := fetch s; unregistering := unregistering s |}.

Definition set_fetch (p : option Promise) (s : State) : State :=
  {| chat_id := chat_id s; certificate := certificate s;
     _updatesOffset := _updatesOffset s; webhook := webhook s;
     polling := polling s; inFlight := inFlight s;
     _readableState := _readableState s;
     fetch := p; unregistering := unregistering s |}.

Definition set_unregistering (l : list Callback) (s : State) : State :=
  {| chat_id := chat_id s; certificate := certificate s;
     _updatesOffset := _updatesOffset s; webhook := webhook s;
     polling := polling s; inFlight := inFlight s;
     _readableState := _readableState s;
     fetch := fetch s; unregistering := l |}.

(** ** The monad of the instance's code: state and an effect trace *)

Definition M (A : Type) : Type := State -> A * State * list Effect.

Definition ret {A : Type} (a : A) : M A := fun s => (a, s, []).

Definition bind {A B : Type} (m : M A) (k : A -> M B) : M B :=
  fun s =>
    let '(a, s1, t1) := m s in
    let '(b, s2, t2) := k a s1 in
    (b, s2, t1 ++ t2).

Definition get : M State := fun s => (s, s, []).
Definition modify (f : State -> State) : M unit := fun s => (tt, f s, []).
Definition tell (t : list Effect) : M unit := fun s => (tt, s, t).

Declare Scope js_scope.
Delimit Scope js_scope with js.
Notation "x <- m ;; k" := (bind m (fun x => k))
  (at level 61, m at next level, right associativity) : js_scope.
Notation "m ;; k" := (bind m (fun _ => k))
  (at level 61, right associativity) : js_scope.
Local Open Scope js_scope.

Definition result_of {A : Type} (r : A * State * list Effect) : A := fst (fst r).
Definition state_of {A : Type} (r : A * State * list Effect) : State := snd (fst r).
Definition trace_of {A : Type} (r : A * State * list Effect) : list Effect := snd r.

(** [Array.prototype.reduce] with an initial value. *)
Fixpoint reduce {A B : Type} (f : A -> B -> M A) (l : list B) (acc : A) : M A :=
  match l with
  | [] => ret acc
  | x :: l' => a <- f acc x ;; reduce f l' a
  end.

(** ** Collaborators whose code is not in the repository *)

(** [stream_push] is [Readable.prototype.push] on the stream's read
    state: the new state and the boolean it returns.
    [JSON_stringify] is the built-in serializer. *)
Class Collaborators : Type := {
  stream_push : Stream.state -> option string -> Stream.state * bool;
  JSON_stringify : Chunk -> Serialized
}.

Section Instance.

Context {collaborators : Collaborators}.

(** [self.push(chunk)]. *)
Definition push (chunk : option string) : M Js.value :=
  s <- get ;;
  let '(r, more) := stream_push (_readableState s) chunk in
  modify (set_readableState r) ;;
  tell [Push chunk] ;;
  ret (Js.Bool more).

(** Lines 63-69.  The function has no [return]: its value is
    [undefined]. *)
Definition emitError (message : string) (data : ErrorData) : M Js.value :=
  tell [Emit_error message data] ;;
  ret Js.Undefined.

(** Lines 78-100. *)
Definition processUpdate (update : Api.Update) : M Js.value :=
  let update_id := Api.update_id update in
  s <- get ;;
  (if update_id >=? _updatesOffset s
   then modify (set_updatesOffset (Js.add update_id 1))
   else ret tt) ;;
  match Api.message update with
  | None => emitError "Inline queries are not supported" (OfUpdate update)
  | Some message =>
      if negb (Js.strict_eq (Api.id (Api.chat message)) (chat_id s))
      then emitError "Received message for not-listening chat" (OfMessage message)
      else
        match Api.text message with
        | None => emitError "Only text messages are supported" (OfMessage message)
        | Some text => push (Some text)
        end
  end.

(** Line 102: [this.push.bind(this, null)]. *)
Definition end_ : M unit :=
  push None ;; ret tt.

(** Lines 115-119.  Calling [close] on [null] throws. *)
Definition closeWebhook : M unit :=
  s <- get ;;
  match webhook s with
  | WListener => tell [WebhookPost_close] ;; modify (set_webhook (WRaw Js.Null))
  | WRaw _ => tell [Uncaught_TypeError]
  end.

Definition run_callback (cb : Callback) : M unit :=
  match cb with
  | Cb_end => end_
  | Cb_closeWebhook => closeWebhook
  end.

Fixpoint run_callbacks (cbs : list Callback) : M unit :=
  match cbs with
  | [] => ret tt
  | cb :: cbs' => run_callback cb ;; run_callbacks cbs'
  end.

Definition webhook_truthy (w : WebhookVar) : bool :=
  match w with
  | WListener => true
  | WRaw v => Js.truthy v
  end.

Definition webhook_is (v : Js.value) (w : WebhookVar) : bool :=
  match w with
  | WListener => false
  | WRaw v' => Js.strict_eq v' v
  end.

(** *** Webhook (lines 139-165) *)

(** ['open']: register the public address. *)
Definition on_open (url : string) : M unit :=
  s <- get ;;
  tell [Api_setWebhook (Some url) (certificate s)].

(** The [catch] of the registration. *)
Definition on_register_failed (error : Api.Error) : M unit :=
  tell [Emit_error_from error] ;;
  modify (set_webhook (WRaw Js.Null)) ;;
  end_.

(** ['data'], after [JSON.parse]. *)
Definition on_data (update : Api.Update) : M unit :=
  s <- get ;;
  if Api.update_id update >=? _updatesOffset s
  then processUpdate update ;; ret tt
  else ret tt.

(** ['error']. *)
Definition on_error (error : Api.Error) : M unit :=
  tell [Emit_error_from error].

(** ['end']. *)
Definition on_end : M unit :=
  s <- get ;;
  if negb (webhook_truthy (webhook s)) then end_
  else
    modify (set_webhook (WRaw Js.Null)) ;;
    tell [Api_setWebhook None (certificate s)] ;;
    modify (fun s' => set_unregistering (unregistering s' ++ [Cb_end]) s').

(** *** Polling (lines 184-237) *)

Definition processUpdate_reduce (fetchMoreDate : Js.value) (update : Api.Update)
  : M Js.value :=
  r <- processUpdate update ;;
  ret (Js.and r fetchMoreDate).

Definition gotUpdates (data : list Api.Update) : M unit :=
  modify (set_inFlight false) ;;
  r <- reduce processUpdate_reduce data (Js.Bool true) ;;
  if Js.truthy r then tell [SetTimeout_read 1000] else ret tt.

Definition onError (error : Api.Error) : M unit :=
  modify (set_inFlight false) ;;
  tell [Emit_error_from error].

Definition _read : M unit :=
  s <- get ;;
  let state := _readableState s in
  let limit := Js.sub (Stream.highWaterMark state) (Stream.length state) in
  if inFlight s || Stream.ended state || (limit =? 0)
     || match polling s with PNull => true | _ => false end
     || negb (webhook_is Js.Undefined (webhook s))
  then ret tt
  else
    modify (set_inFlight true) ;;
    tell [Api_getUpdates (_updatesOffset s) limit 0] ;;
    modify (set_fetch (Some (Pending []))) ;;
    modify (set_polling PPromise).

(** *** Duplex API (lines 253-263) *)

(** [chunk == null]: an object never is. *)
Definition chunk_loose_eq_null (chunk : Chunk) : bool :=
  match chunk with
  | CPrim (Value v) => Js.loose_eq_null v
  | _ => false
  end.

(** [p == ''] on a primitive: a BigInt is compared with 0; a number
    that is not an integer and a symbol never are equal to it. *)
Definition primitive_loose_eq_empty (p : Primitive) : bool :=
  match p with
  | Value v => Js.loose_eq_empty v
  | BigInt n => n =? 0
  | Other_number _ | Symbol => false
  end.

(** [chunk == '']: an object is converted to a primitive first, which
    can throw ([None]). *)
Definition chunk_loose_eq_empty (chunk : Chunk) : option bool :=
  match chunk with
  | CPrim p => Some (primitive_loose_eq_empty p)
  | CObj (Some p) _ => Some (primitive_loose_eq_empty p)
  | CObj None _ => None
  end.

(** [done] is called here only on the early return; otherwise it is
    left to [on_sent].  [JSON.stringify(chunk)] is evaluated before
    [sendMessage] is called. *)
Definition _write (chunk : Chunk) : M unit :=
  if chunk_loose_eq_null chunk then tell [Done None]
  else
    match chunk_loose_eq_empty chunk with
    | None => tell [Thrown_from_write]
    | Some true => tell [Done None]
    | Some false =>
        match JSON_stringify chunk with
        | Stringify_throws => tell [Thrown_from_write]
        | Text t => s <- get ;; tell [Api_sendMessage (chat_id s) (Some t)]
        | No_text => s <- get ;; tell [Api_sendMessage (chat_id s) None]
        end
    end.

(** [.then(done.bind(null, null), done)]: the outcome of [sendMessage]
    is the outcome of the write. *)
Definition on_sent (outcome : option Api.Error) : M unit :=
  tell [Done outcome].

(** *** Public API (lines 273-286) *)

(** [polling.then(end, end)]: a reaction on a settled promise runs as
    soon as the caller returns. *)
Definition then_end : M unit :=
  s <- get ;;
  match fetch s with
  | Some (Pending reactions) =>
      modify (set_fetch (Some (Pending (reactions ++ [Cb_end]))))
  | Some Settled => end_
  | None => ret tt
  end.

Definition close : M unit :=
  s <- get ;;
  if webhook_is Js.Null (webhook s) then ret tt
  else if webhook_truthy (webhook s) then
    tell [Api_setWebhook None (certificate s)] ;;
    modify (fun s' => set_unregistering (unregistering s' ++ [Cb_closeWebhook]) s')
  else
    match polling s with
    | PPromise => then_end ;; modify (set_polling PNull)
    | _ => ret tt
    end.

(** *** Settling of the calls the instance waits for *)

(** The [getUpdates] chain settles: [gotUpdates] or [onError] runs,
    then the reactions [close] attached to [polling]. *)
Definition on_fetch_settled (outcome : Api.Error + list Api.Update) : M unit :=
  match outcome with
  | inr data => gotUpdates data
  | inl error => onError error
  end ;;
  s <- get ;;
  match fetch s with
  | Some (Pending reactions) =>
      modify (set_fetch (Some Settled)) ;;
      run_callbacks reactions
  | _ => ret tt
  end.

Fixpoint remove_nth {A : Type} (n : nat) (l : list A) : list A :=
  match n, l with
  | _, [] => []
  | O, _ :: l' => l'
  | S n', x :: l' => x :: remove_nth n' l'
  end.

(** The [n]-th pending [setWebhook({certificate})] settles; fulfilment
    and rejection run the same reaction. *)
Definition on_unregister_settled (n : nat) : M unit :=
  s <- get ;;
  match nth_error (unregistering s) n with
  | Some cb =>
      modify (set_unregistering (remove_nth n (unregistering s))) ;;
      run_callback cb
  | None => ret tt
  end.

(** *** Construction (lines 26-166) *)

Inductive Thrown : Type :=
| TypeError_no_constructor
  (** [token.constructor] on [undefined] or [null] *)
| Duplex_rejects_highWaterMark
| Missing_token
| Missing_chat_id
| RangeError_port (port : Config.Port).

Definition webhook_option_truthy (w : Config.Webhook) : bool :=
  match w with
  | Config.WPrim v => Js.truthy v
  | Config.WObject _ _ _ => true
  end.

(** [typeof webhook !== 'string']. *)
Definition webhook_option_not_string (w : Config.Webhook) : bool :=
  match w with
  | Config.WPrim (Js.Str _) => false
  | _ => true
  end.

(** [webhook.port || webhook]; a primitive has no [port]. *)
Definition port_of (w : Config.Webhook) : Config.Port :=
  match w with
  | Config.WPrim v => Config.PortValue v
  | Config.WObject _ port _ =>
      if Js.truthy port then Config.PortValue port
      else Config.PortIsWebhookObject
  end.

(** [port !== 80 && port !== 88 && port !== 443 && port !== 8443]. *)
Definition port_rejected (p : Config.Port) : bool :=
  match p with
  | Config.PortValue v =>
      negb (Js.strict_eq v (Js.Num 80)) && negb (Js.strict_eq v (Js.Num 88))
      && negb (Js.strict_eq v (Js.Num 443)) && negb (Js.strict_eq v (Js.Num 8443))
  | Config.PortIsWebhookObject => true
  end.

(** [webhook.certificate]; a primitive has none. *)
Definition certificate_of (w : Config.Webhook) : Js.value :=
  match w with
  | Config.WPrim _ => Js.Undefined
  | Config.WObject _ _ c => c
  end.

(** What the variable [webhook] keeps when no listener is made: the
    falsy value of the option (an object is never falsy). *)
Definition unused_webhook (w : Config.Webhook) : WebhookVar :=
  match w with
  | Config.WPrim v => WRaw v
  | Config.WObject _ _ _ => WListener
  end.

(** The constructor: what it did before it returned or threw, and the
    instance or the exception.  The options go to the [Duplex]
    constructor with [objectMode] set, which refuses a negative
    [highWaterMark]; the token and the chat are checked next, then
    the API client is made, then the port is checked, and the
    listener is made last. *)
Definition TelegramLog (token : Config.TokenArg) (chat_id : Js.value)
    (options : option Config.Options) : list Effect * (Thrown + State) :=
  match token with
  | Config.TokenValue Js.Undefined | Config.TokenValue Js.Null =>
      ([], inl TypeError_no_constructor)
  | _ =>
      let '(token, chat_id, options) :=
        match token with
        | Config.TokenObject t c o => (t, c, o)
        | Config.TokenValue v => (v, chat_id, options)
        end in
      let options := match options with Some o => o | None => Config.empty end in
      if negb (Stream.accepts (Config.highWaterMark options))
      then ([], inl Duplex_rejects_highWaterMark)
      else if negb (Js.truthy token) then ([], inl Missing_token)
      else if negb (Js.truthy chat_id) then ([], inl Missing_chat_id)
      else
        let instance (w : WebhookVar) (certificate : Js.value) : State :=
          {| chat_id := chat_id; certificate := certificate;
             _updatesOffset := 0; webhook := w; polling := PUndefined;
             inFlight := false;
             _readableState := Stream.create (Config.highWaterMark options);
             fetch := None; unregistering := [] |} in
        let webhook := Config.webhook options in
        if webhook_option_truthy webhook then
          if webhook_option_not_string webhook && port_rejected (port_of webhook)
          then ([Api_new token], inl (RangeError_port (port_of webhook)))
          else
            let certificate :=
              Js.or (Js.or (certificate_of webhook) (Config.certificate options))
                    (Js.Str "") in
            ([Api_new token; WebhookPost_create webhook],
             inr (instance WListener certificate))
        else ([Api_new token], inr (instance (unused_webhook webhook) Js.Undefined))
  end.

(** *** The instance as a reactive system *)

(** What can happen to an instance: a call of its API, or an event of
    one of its collaborators. *)
Inductive Input : Type :=
| Call_read
| Call_write (chunk : Chunk)
| Call_close
| Timer_fired
| Fetch_settled (outcome : Api.Error + list Api.Update)
| Send_settled (outcome : option Api.Error)
| Listener_open (url : string)
| Listener_data (update : Api.Update)
| Listener_error (error : Api.Error)
| Listener_end
| Register_failed (error : Api.Error)
| Unregister_settled (n : nat).

Definition step (i : Input) : M unit :=
  match i with
  | Call_read | Timer_fired => _read
  | Call_write chunk => _write chunk
  | Call_close => close
  | Fetch_settled outcome => on_fetch_settled outcome
  | Send_settled outcome => on_sent outcome
  | Listener_open url => on_open url
  | Listener_data update => on_data update
  | Listener_error error => on_error error
  | Listener_end => on_end
  | Register_failed error => on_register_failed error
  | Unregister_settled n => on_unregister_settled n
  end.

Fixpoint run (inputs : list Input) : M unit :=
  match inputs with
  | [] => ret tt
  | i :: inputs' => step i ;; run inputs'
  end.

End Instance.

(** ** A reference instance of the collaborators

    An object-mode stream nobody reads from: [push] queues the object
    and answers whether the queue is still below the high-water mark;
    [push(null)] ends the stream.  [JSON.stringify] on the modelled
    values: no text for [undefined] and for a symbol, an exception for
    a BigInt. *)

Definition queue_push (st : Stream.state) (chunk : option string)
  : Stream.state * bool :=
  match chunk with
  | None =>
      ({| Stream.highWaterMark := Stream.highWaterMark st;
          Stream.length := Stream.length st;
          Stream.ended := true |}, false)
  | Some _ =>
      if Stream.ended st then (st, false)
      else
        let n := Stream.length st + 1 in
        ({| Stream.highWaterMark := Stream.highWaterMark st;
            Stream.length := n;
            Stream.ended := false |},
         n <? Stream.highWaterMark st)
  end.

Definition quote : string := String (Ascii.ascii_of_nat 34) EmptyString.
Definition backslash : string := String (Ascii.ascii_of_nat 92) EmptyString.

Definition hex_digit (n : nat) : string :=
  String (Ascii.ascii_of_nat (if Nat.ltb n 10 then 48 + n else 87 + n)) EmptyString.

(** QuoteJSONString on one code unit below 128. *)
Definition json_escape_char (c : Ascii.ascii) : string :=
  let n := Ascii.nat_of_ascii c in
  if Nat.eqb n 34 then backslash ++ quote
  else if Nat.eqb n 92 then backslash ++ backslash
  else if Nat.eqb n 8 then backslash ++ "b"
  else if Nat.eqb n 9 then backslash ++ "t"
  else if Nat.eqb n 10 then backslash ++ "n"
  else if Nat.eqb n 12 then backslash ++ "f"
  else if Nat.eqb n 13 then backslash ++ "r"
  else if Nat.ltb n 32
       then backslash ++ "u00" ++ hex_digit (Nat.div n 16) ++ hex_digit (Nat.modulo n 16)
  else String c EmptyString.

Fixpoint json_escape (s : string) : string :=
  match s with
  | EmptyString => EmptyString
  | String c s' => json_escape_char c ++ json_escape s'
  end.

Definition json_of_value (v : Js.value) : string :=
  match v with
  | Js.Undefined => "undefined"
  | Js.Null => "null"
  | Js.Bool true => "true"
  | Js.Bool false => "false"
  | Js.Num n => DecimalString.NilZero.string_of_int (Z.to_int n)
  | Js.Str s => quote ++ json_escape s ++ quote
  end.

Definition json_of_chunk (chunk : Chunk) : Serialized :=
  match chunk with
  | CPrim (Value Js.Undefined) | CPrim Symbol => No_text
  | CPrim (Value v) => Text (json_of_value v)
  | CPrim (BigInt _) => Stringify_throws
  | CPrim (Other_number json) => Text json
  | CObj _ json => json
  end.

Definition reference : Collaborators :=
  {| stream_push := queue_push; JSON_stringify := json_of_chunk |}.

(** ** Vocabulary of the specification *)

(** The payloads of the objects pushed to the read side: each is one
    ['data'] event of the stream. *)
Fixpoint data_events (t : list Effect) : list string :=
  match t with
  | [] => []
  | Push (Some text) :: t' => text :: data_events t'
  | _ :: t' => data_events t'
  end.

(** The ['error'] events. *)
Definition is_error_event (e : Effect) : bool :=
  match e with
  | Emit_error _ _ | Emit_error_from _ => true
  | _ => false
  end.

Definition error_events (t : list Effect) : list Effect := filter is_error_event t.

(** End of data: [push(null)]. *)
Definition signals_end (t : list Effect) : bool :=
  existsb (fun e => match e with Push None => true | _ => false end) t.

Definition is_timer (e : Effect) : bool :=
  match e with SetTimeout_read _ => true | _ => false end.

Definition is_unregistration (e : Effect) : bool :=
  match e with Api_setWebhook None _ => true | _ => false end.

Definition is_sendMessage (e : Effect) : bool :=
  match e with Api_sendMessage _ _ => true | _ => false end.

(** The three reasons the validator rejects an update for. *)
Inductive RejectKind : Type :=
| InlineQueryUnsupported
| WrongChat
| NonTextMessage.

(** The message of the error each kind is reported with. *)
Definition reject_message (k : RejectKind) : string :=
  match k with
  | InlineQueryUnsupported => "Inline queries are not supported"
  | WrongChat => "Received message for not-listening chat"
  | NonTextMessage => "Only text messages are supported"
  end.

(** The validator as the specification words it: the text to push, or
    the kind of the rejection and the offending object. *)
Definition validate (chat_id : Js.value) (update : Api.Update)
  : string + RejectKind * ErrorData :=
  match Api.message update with
  | None => inr (InlineQueryUnsupported, OfUpdate update)
  | Some m =>
      if Js.strict_eq (Api.id (Api.chat m)) chat_id then
        match Api.text m with
        | Some t => inl t
        | None => inr (NonTextMessage, OfMessage m)
        end
      else inr (WrongChat, OfMessage m)
  end.

Definition rejected (chat_id : Js.value) (update : Api.Update) : bool :=
  match validate chat_id update with inl _ => false | inr _ => true end.

(** The updates an input delivers to the instance. *)
Definition observed (i : Input) : list Api.Update :=
  match i with
  | Listener_data update => [update]
  | Fetch_settled (inr data) => data
  | _ => []
  end.

Definition observed_ids (inputs : list Input) : list Z :=
  map Api.update_id (flat_map observed inputs).


(** Free room in the read buffer. *)
Definition free_capacity (s : State) : Z :=
  Js.sub (Stream.highWaterMark (_readableState s)) (Stream.length (_readableState s)).

(** The payloads [_write] acknowledges without sending: [undefined],
    [null], and what is loosely equal to the empty string. *)
Definition empty_like (p : Primitive) : Prop :=
  p = Value (Js.Str "") \/ p = Value (Js.Num 0) \/ p = Value (Js.Bool false)
  \/ p = BigInt 0.

Definition acknowledged_unsent (chunk : Chunk) : Prop :=
  chunk = CPrim Js.Undefined \/ chunk = CPrim Js.Null
  \/ exists p, empty_like p
                /\ (chunk = CPrim p \/ exists json, chunk = CObj (Some p) json).

(** A port the platform accepts. *)
Definition supported_port (n : Z) : Prop :=
  n = 80 \/ n = 88 \/ n = 443 \/ n = 8443.

(** Calls to the Telegram API client. *)
Definition is_getUpdates (e : Effect) : bool :=
  match e with Api_getUpdates _ _ _ => true | _ => false end.

Definition is_api_call (e : Effect) : bool :=
  match e with
  | Api_getUpdates _ _ _ | Api_sendMessage _ _ | Api_setWebhook _ _ => true
  | _ => false
  end.

(** Anything done to the webhook side: a registration call or the
    closing of the listener. *)
Definition is_webhook_effect (e : Effect) : bool :=
  match e with
  | Api_setWebhook _ _ | WebhookPost_close | WebhookPost_create _ => true
  | _ => false
  end.

Definition is_fetch_settled (i : Input) : bool :=
  match i with Fetch_settled _ => true | _ => false end.

(** The inputs an instance without listener can receive. *)
Definition polling_input (i : Input) : bool :=
  match i with
  | Call_read | Call_write _ | Call_close | Timer_fired
  | Fetch_settled _ | Send_settled _ => true
  | _ => false
  end.

(** The texts of the updates the validator accepts, in order. *)
Definition accepted_texts (chat : Js.value) (data : list Api.Update) : list string :=
  flat_map (fun u => match validate chat u with
                     | inl text => [text]
                     | inr _ => []
                     end) data.

(** The errors reported for the updates the validator rejects, in order. *)
Definition rejection_errors (chat : Js.value) (data : list Api.Update) : list Effect :=
  flat_map (fun u => match validate chat u with
                     | inl _ => []
                     | inr (kind, d) => [Emit_error (reject_message kind) d]
                     end) data.

(** Identifiers that grow strictly, the first one not below [offset]:
    each is at or above the offset the one before it leaves. *)
Fixpoint fresh_increasing (offset : Z) (updates : list Api.Update) : Prop :=
  match updates with
  | [] => True
  | u :: rest =>
      offset <= Api.update_id u
      /\ fresh_increasing (Js.add (Api.update_id u) 1) rest
  end.

(** Everything of the instance but its offset and its read buffer. *)
Definition control (s : State)
  : Js.value * Js.value * WebhookVar * PollingVar * bool
    * option Promise * list Callback :=
  (chat_id s, certificate s, webhook s, polling s, inFlight s, fetch s,
   unregistering s).

Definition count_getUpdates (t : list Effect) : nat :=
  List.length (filter is_getUpdates t).

Definition count_fetch_settled (inputs : list Input) : nat :=
  List.length (filter is_fetch_settled inputs).

(** The forms of [options.webhook] the constructor lets through:
    nothing (any falsy value), a host name, one of the four ports, or
    an object whose port is one of the four. *)
Definition accepted_webhook (w : Config.Webhook) : Prop :=
  (exists v, w = Config.WPrim v /\ Js.truthy v = false)
  \/ (exists host, w = Config.WPrim (Js.Str host))
  \/ (exists n, w = Config.WPrim (Js.Num n) /\ supported_port n)
  \/ (exists host n c, w = Config.WObject host (Js.Num n) c /\ supported_port n).

(** A change of the instance that the processing of updates neither
    reads nor undoes: it keeps the chat, the offset and the read
    buffer, and commutes with their assignments. *)
Definition beside_the_pipeline (g : State -> State) : Prop :=
  (forall s, chat_id (g s) = chat_id s)
  /\ (forall s, _updatesOffset (g s) = _updatesOffset s)
  /\ (forall s, _readableState (g s) = _readableState s)
  /\ (forall n s, g (set_updatesOffset n s) = set_updatesOffset n (g s))
  /\ (forall r s, g (set_readableState r s) = set_readableState r (g s))
  /\ (forall b s, g (set_inFlight b s) = set_inFlight b (g s)).

(** End of data: [push(null)]. *)
Definition is_end (e : Effect) : bool :=
  match e with Push None => true | _ => false end.

Definition count_ends (t : list Effect) : nat := List.length (filter is_end t).

(** How [polling] and the promise it refers to go together in an
    instance without listener: [close] leaves exactly [end] on a
    pending promise when it stops the polling, and nothing else ever
    reacts to that promise. *)
Definition polling_consistent (s : State) : Prop :=
  webhook s = WRaw Js.Undefined
  /\ match polling s, fetch s with
     | PNull, Some (Pending reactions) => reactions = [Cb_end]
     | _, Some (Pending reactions) => reactions = []
     | _, _ => True
     end.

(** The ends of data such an instance can still signal. *)
Definition ends_to_come (s : State) : nat :=
  match polling s, fetch s with
  | PNull, Some (Pending _) => 1
  | PNull, _ => 0
  | _, _ => 1
  end.

(** ** Scenarios *)

Definition text_update (n : Z) (chat : Z) (t : string) : Api.Update :=
  {| Api.update_id := n;
     Api.message := Some {| Api.chat := {| Api.id := Js.Num chat |};
                            Api.text := Some t |} |}.

Definition polling_42 : State :=
  {| chat_id := Js.Num 42; certificate := Js.Undefined; _updatesOffset := 0;
     webhook := WRaw Js.Undefined; polling := PUndefined; inFlight := false;
     _readableState := Stream.create None; fetch := None;
     unregistering := [] |}.

Definition update_without_message (n : Z) : Api.Update :=
  {| Api.update_id := n; Api.message := None |}.

Definition mixed_batch : list Api.Update :=
  [text_update 5 42 "a"; update_without_message 9; text_update 7 99 "b"].

Definition listening_443 : State :=
  {| chat_id := Js.Num 42; certificate := Js.Str ""; _updatesOffset := 0;
     webhook := WListener; polling := PUndefined; inFlight := false;
     _readableState := Stream.create None; fetch := None;
     unregistering := [] |}.

Definition webhook_without_port : Config.Options :=
  {| Config.webhook := Config.WObject (Js.Str "example.com") Js.Undefined Js.Undefined;
     Config.certificate := Js.Undefined;
     Config.highWaterMark := None |}.

Definition webhook_8080 : Config.Options :=
  {| Config.webhook := Config.WPrim (Js.Num 8080);
     Config.certificate := Js.Undefined;
     Config.highWaterMark := None |}.

Definition webhook_443 : Config.Options :=
  {| Config.webhook := Config.WPrim (Js.Num 443);
     Config.certificate := Js.Undefined;
     Config.highWaterMark := None |}.

(** ** The pipeline of the specification

    Offset Tracker, then Validator, for one update; the answer is
    whether the update was pushed and the consumer asked for more. *)

Section Pipeline.

Context {collaborators : Collaborators}.

(** [observe]: an identifier at or above the offset moves the offset
    just past it. *)
Definition observe (update_id : Z) (offset : Z) : Z :=
  if update_id >=? offset then Js.add update_id 1 else offset.

Definition track_then_validate (update : Api.Update) : M bool :=
  s <- get ;;
  modify (set_updatesOffset (observe (Api.update_id update) (_updatesOffset s))) ;;
  match validate (chat_id s) update with
  | inr (kind, data) => tell [Emit_error (reject_message kind) data] ;; ret false
  | inl text => r <- push (Some text) ;; ret (Js.truthy r)
  end.

(** A batch: every update in turn, and the conjunction of the answers. *)
Fixpoint pipeline_in_order (data : list Api.Update) : M bool :=
  match data with
  | [] => ret true
  | update :: rest =>
      ok <- track_then_validate update ;;
      continueFlag <- pipeline_in_order rest ;;
      ret (ok && continueFlag)
  end.

End Pipeline.

(** ** Properties *)

Section Properties.

Context {collaborators : Collaborators}.

Lemma strict_eq_iff (a b : Js.value) : Js.strict_eq a b = true <-> a = b.
Proof.
  destruct a, b; simpl; split; intro H;
    try discriminate; try reflexivity; try congruence.
  - apply Bool.eqb_prop in H; congruence.
  - injection H as ->; apply Bool.eqb_reflx.
  - apply Z.eqb_eq in H; congruence.
  - injection H as ->; apply Z.eqb_refl.
  - apply String.eqb_eq in H; congruence.
  - injection H as ->; apply String.eqb_refl.
Qed.

(** Below 2^53 in magnitude an integer is its own double, and adding
    1 to a safe integer is exact. *)
Lemma round53_small (m : Z) : Z.abs m < 2 ^ 53 -> Js.round53 m = m.
Proof.
  intros H. unfold Js.round53.
  destruct (Z.ltb_spec (Z.abs m) (2 ^ 53)); [reflexivity|lia].
Qed.

Lemma add_one_safe (n : Z) : Js.safe_integer n -> Js.add n 1 = n + 1.
Proof.
  unfold Js.safe_integer, Js.add. intros H.
  destruct (Z.eq_dec (n + 1) (2 ^ 53)) as [E|E].
  - rewrite E. reflexivity.
  - apply round53_small. lia.
Qed.

Lemma observe_safe (id offset : Z) :
  Js.safe_integer id ->
  observe id offset = if id >=? offset then id + 1 else offset.
Proof. intros H. unfold observe. now rewrite add_one_safe. Qed.

Lemma set_updatesOffset_same (s : State) : set_updatesOffset (_updatesOffset s) s = s.
Proof. destruct s; reflexivity. Qed.

(** Unfolding of the monad's operations. *)
Ltac run_m :=
  cbv [bind get modify tell ret emitError push end_ result_of state_of trace_of];
  cbn [fst snd app].

Ltac split_push :=
  repeat match goal with
         | |- context [stream_push ?r ?c] => destruct (stream_push r c)
         end.

(** [processUpdate] is the offset tracker followed by the validator. *)
Lemma processUpdate_pipeline (update : Api.Update) (s : State) :
  processUpdate update s =
  let s1 := set_updatesOffset (observe (Api.update_id update) (_updatesOffset s)) s in
  match validate (chat_id s) update with
  | inr (kind, data) => (Js.Undefined, s1, [Emit_error (reject_message kind) data])
  | inl text =>
      (Js.Bool (snd (stream_push (_readableState s) (Some text))),
       set_readableState (fst (stream_push (_readableState s) (Some text))) s1,
       [Push (Some text)])
  end.
Proof.
  unfold processUpdate, validate, observe. run_m.
  destruct (Api.update_id update >=? _updatesOffset s);
    rewrite ?set_updatesOffset_same;
    destruct (Api.message update) as [m|]; cbn; try reflexivity;
    destruct (Js.strict_eq (Api.id (Api.chat m)) (chat_id s)); cbn; try reflexivity;
    destruct (Api.text m); cbn; try reflexivity;
    run_m; cbn; split_push; reflexivity.
Qed.

Lemma track_then_validate_eq (update : Api.Update) (s : State) :
  track_then_validate update s =
  let '(r, s', t) := processUpdate update s in (Js.truthy r, s', t).
Proof.
  rewrite processUpdate_pipeline. unfold track_then_validate. run_m.
  destruct (validate (chat_id s) update) as [text|[kind data]]; cbn.
  - run_m. cbn. split_push. reflexivity.
  - reflexivity.
Qed.

Lemma truthy_and (a b : Js.value) :
  Js.truthy (Js.and a b) = Js.truthy a && Js.truthy b.
Proof. unfold Js.and. destruct (Js.truthy a) eqn:E; cbn; auto. Qed.

Lemma reduce_cons (u : Api.Update) (rest : list Api.Update)
    (acc : Js.value) (s : State) :
  reduce processUpdate_reduce (u :: rest) acc s =
  let '(r, s1, t1) := processUpdate u s in
  let '(v, s2, t2) := reduce processUpdate_reduce rest (Js.and r acc) s1 in
  (v, s2, t1 ++ t2).
Proof.
  cbn [reduce]. unfold bind, processUpdate_reduce, bind, ret.
  destruct (processUpdate u s) as [[r s1] t1].
  rewrite app_nil_r. reflexivity.
Qed.

(** The [reduce] of [gotUpdates] runs the pipeline over the batch. *)
Lemma reduce_pipeline (data : list Api.Update) :
  forall (acc : Js.value) (s : State),
    state_of (reduce processUpdate_reduce data acc s)
    = state_of (pipeline_in_order data s)
    /\ trace_of (reduce processUpdate_reduce data acc s)
       = trace_of (pipeline_in_order data s)
    /\ Js.truthy (result_of (reduce processUpdate_reduce data acc s))
       = result_of (pipeline_in_order data s) && Js.truthy acc.
Proof.
  induction data as [|u rest IH]; intros acc s.
  - cbn. auto.
  - rewrite reduce_cons. cbn [pipeline_in_order]. unfold bind.
    rewrite track_then_validate_eq.
    destruct (processUpdate u s) as [[r s1] t1].
    specialize (IH (Js.and r acc) s1).
    destruct (reduce processUpdate_reduce rest (Js.and r acc) s1) as [[v s2] t2].
    destruct (pipeline_in_order rest s1) as [[flag s3] t3].
    unfold state_of, trace_of, result_of, ret in *. cbn in *.
    destruct IH as (-> & -> & ->). rewrite truthy_and.
    repeat split.
    + now rewrite app_nil_r.
    + destruct (Js.truthy r), flag, (Js.truthy acc); reflexivity.
Qed.

(** One update leaves exactly one event, never a timer. *)
Lemma track_then_validate_trace (update : Api.Update) (s : State) :
  exists e, trace_of (track_then_validate update s) = [e] /\ is_timer e = false.
Proof.
  rewrite track_then_validate_eq, processUpdate_pipeline. cbn zeta.
  destruct (validate (chat_id s) update) as [text|[kind data]];
    eexists; split; reflexivity.
Qed.

Lemma pipeline_trace (data : list Api.Update) :
  forall s : State,
    List.length (trace_of (pipeline_in_order data s)) = List.length data
    /\ existsb is_timer (trace_of (pipeline_in_order data s)) = false.
Proof.
  induction data as [|u rest IH]; intros s; [cbn; auto|].
  cbn [pipeline_in_order]. unfold bind.
  destruct (track_then_validate_trace u s) as (e & He & Ht).
  destruct (track_then_validate u s) as [[ok s1] t1].
  specialize (IH s1). destruct (pipeline_in_order rest s1) as [[flag s2] t2].
  unfold trace_of in *. cbn in *. subst t1. cbn.
  rewrite app_nil_r, Ht. destruct IH as [-> ->]. auto.
Qed.

Lemma track_then_validate_chat_id (update : Api.Update) (s : State) :
  chat_id (state_of (track_then_validate update s)) = chat_id s.
Proof.
  rewrite track_then_validate_eq, processUpdate_pipeline. cbn zeta.
  destruct (validate (chat_id s) update) as [text|[kind data]]; reflexivity.
Qed.

Lemma track_then_validate_rejected (update : Api.Update) (s : State) :
  rejected (chat_id s) update = true ->
  result_of (track_then_validate update s) = false.
Proof.
  unfold rejected. rewrite track_then_validate_eq, processUpdate_pipeline. cbn zeta.
  destruct (validate (chat_id s) update) as [text|[kind data]];
    [discriminate | reflexivity].
Qed.

Lemma pipeline_rejected (data : list Api.Update) :
  forall s : State,
    existsb (rejected (chat_id s)) data = true ->
    result_of (pipeline_in_order data s) = false.
Proof.
  induction data as [|u rest IH]; intros s H; [discriminate|].
  cbn [pipeline_in_order]. unfold bind.
  pose proof (track_then_validate_rejected u s) as Hr.
  pose proof (track_then_validate_chat_id u s) as Hc.
  destruct (track_then_validate u s) as [[ok s1] t1].
  specialize (IH s1).
  destruct (pipeline_in_order rest s1) as [[flag s2] t2].
  unfold result_of, state_of in *. cbn in *.
  apply orb_true_iff in H. destruct H as [H|H].
  - rewrite (Hr H). reflexivity.
  - rewrite Hc in IH. rewrite (IH H). apply andb_false_r.
Qed.

(** [gotUpdates] in terms of the pipeline. *)
Lemma gotUpdates_pipeline (data : list Api.Update) (s : State) :
  gotUpdates data s =
  (let '(continueFlag, s', t) := pipeline_in_order data (set_inFlight false s) in
   (tt, s', t ++ (if continueFlag then [SetTimeout_read 1000] else []))).
Proof.
  unfold gotUpdates. unfold bind, modify. cbn [app].
  destruct (reduce_pipeline data (Js.Bool true) (set_inFlight false s)) as (Hs & Ht & Hr).
  destruct (reduce processUpdate_reduce data (Js.Bool true) (set_inFlight false s))
    as [[v s1] t1].
  destruct (pipeline_in_order data (set_inFlight false s)) as [[flag s2] t2].
  unfold state_of, trace_of, result_of in *. cbn in *. subst s2 t2.
  rewrite Hr, andb_true_r.
  destruct flag; cbn; reflexivity.
Qed.

(** *** The offset across the instance's operations *)

Ltac break_match :=
  repeat match goal with
         | |- context [match ?x with _ => _ end] =>
             lazymatch x with
             | context [match _ with _ => _ end] => fail
             | stream_push _ _ => destruct x
             | _ => destruct x eqn:?
             end; cbn
         end.

Lemma end_offset (s : State) :
  _updatesOffset (state_of (end_ s)) = _updatesOffset s.
Proof. unfold end_. run_m. split_push. reflexivity. Qed.

Lemma run_callback_offset (cb : Callback) (s : State) :
  _updatesOffset (state_of (run_callback cb s)) = _updatesOffset s.
Proof.
  destruct cb; cbn [run_callback]; [apply end_offset|].
  unfold closeWebhook. run_m. destruct (webhook s); reflexivity.
Qed.

Lemma bind_state {A B : Type} (m : M A) (k : A -> M B) (s : State) :
  state_of (bind m k s) = state_of (k (result_of (m s)) (state_of (m s))).
Proof.
  unfold bind, state_of, result_of.
  destruct (m s) as [[a s1] t1]. cbn. destruct (k a s1) as [[b s2] t2]. reflexivity.
Qed.

Lemma bind_trace {A B : Type} (m : M A) (k : A -> M B) (s : State) :
  trace_of (bind m k s)
  = trace_of (m s) ++ trace_of (k (result_of (m s)) (state_of (m s))).
Proof.
  unfold bind, state_of, result_of, trace_of.
  destruct (m s) as [[a s1] t1]. cbn. destruct (k a s1) as [[b s2] t2]. reflexivity.
Qed.

Lemma run_callbacks_offset (cbs : list Callback) :
  forall s : State,
    _updatesOffset (state_of (run_callbacks cbs s)) = _updatesOffset s.
Proof.
  induction cbs as [|cb cbs IH]; intros s; [reflexivity|].
  cbn [run_callbacks]. rewrite bind_state, IH. apply run_callback_offset.
Qed.

(** A batch moves the offset as the tracker does, one update after
    the other. *)
Lemma pipeline_offset (data : list Api.Update) :
  forall s : State,
    _updatesOffset (state_of (pipeline_in_order data s))
    = fold_left (fun o id => observe id o) (map Api.update_id data) (_updatesOffset s).
Proof.
  induction data as [|u rest IH]; intros s; [reflexivity|].
  cbn [pipeline_in_order map fold_left].
  rewrite bind_state, bind_state. cbn [ret state_of fst snd].
  change (snd (fst (pipeline_in_order rest (state_of (track_then_validate u s)))))
    with (state_of (pipeline_in_order rest (state_of (track_then_validate u s)))).
  rewrite IH. f_equal.
  rewrite track_then_validate_eq, processUpdate_pipeline. cbn zeta.
  destruct (validate (chat_id s) u) as [text|[kind data]]; reflexivity.
Qed.

Lemma on_fetch_settled_offset (outcome : Api.Error + list Api.Update) (s : State) :
  _updatesOffset (state_of (on_fetch_settled outcome s))
  = fold_left (fun o id => observe id o)
      (map Api.update_id (observed (Fetch_settled outcome))) (_updatesOffset s).
Proof.
  unfold on_fetch_settled. rewrite bind_state.
  assert (Hreact : forall s1 : State,
    _updatesOffset (state_of (bind get (fun s0 =>
       match fetch s0 with
       | Some (Pending reactions) =>
           bind (modify (set_fetch (Some Settled))) (fun _ => run_callbacks reactions)
       | _ => ret tt
       end) s1)) = _updatesOffset s1).
  { intros s1. rewrite bind_state. cbn [get result_of state_of fst snd].
    destruct (fetch s1) as [[reactions|]|]; try reflexivity.
    rewrite bind_state. cbn [modify result_of state_of fst snd].
    now rewrite run_callbacks_offset. }
  rewrite Hreact. destruct outcome as [error|data]; cbn [observed map fold_left].
  - reflexivity.
  - rewrite gotUpdates_pipeline.
    pose proof (pipeline_offset data (set_inFlight false s)) as H.
    destruct (pipeline_in_order data (set_inFlight false s)) as [[flag s1] t1].
    exact H.
Qed.

Lemma on_data_offset (update : Api.Update) (s : State) :
  _updatesOffset (state_of (on_data update s))
  = observe (Api.update_id update) (_updatesOffset s).
Proof.
  unfold on_data, observe. run_m.
  destruct (Api.update_id update >=? _updatesOffset s) eqn:E; [|reflexivity].
  rewrite processUpdate_pipeline. cbn zeta. unfold observe. rewrite E.
  destruct (validate (chat_id s) update) as [text|[kind data]]; reflexivity.
Qed.

Lemma step_offset (i : Input) (s : State) :
  _updatesOffset (state_of (step i s))
  = fold_left (fun o id => observe id o) (map Api.update_id (observed i))
      (_updatesOffset s).
Proof.
  destruct i; cbn [step observed map fold_left];
    try apply on_fetch_settled_offset; try apply on_data_offset.
  - unfold _read. run_m. break_match; reflexivity.
  - unfold _write. run_m. break_match; reflexivity.
  - unfold close, then_end. run_m. break_match; split_push; reflexivity.
  - unfold _read. run_m. break_match; reflexivity.
  - reflexivity.
  - reflexivity.
  - reflexivity.
  - unfold on_end. run_m. break_match; split_push; reflexivity.
  - unfold on_register_failed. run_m. split_push. reflexivity.
  - unfold on_unregister_settled. rewrite bind_state.
    cbn [get result_of state_of fst snd].
    destruct (nth_error (unregistering s) n); [|reflexivity].
    rewrite bind_state. cbn [modify result_of state_of fst snd].
    now rewrite run_callback_offset.
Qed.

Lemma run_offset (inputs : list Input) :
  forall s : State,
    _updatesOffset (state_of (run inputs s))
    = fold_left (fun o id => observe id o) (observed_ids inputs) (_updatesOffset s).
Proof.
  unfold observed_ids.
  induction inputs as [|i inputs IH]; intros s; [reflexivity|].
  cbn [run flat_map]. rewrite bind_state, IH, step_offset, map_app, fold_left_app.
  reflexivity.
Qed.


Lemma observe_fold_ge (ids : list Z) :
  Forall Js.safe_integer ids ->
  forall o : Z, o <= fold_left (fun o id => observe id o) ids o.
Proof.
  induction 1 as [|x ids Hx Hall IH]; intros o; cbn; [lia|].
  etransitivity; [|apply IH]. rewrite observe_safe by exact Hx.
  destruct (x >=? o) eqn:E; lia.
Qed.





Lemma validate_rejected_iff (chat : Js.value) (u : Api.Update) :
  rejected chat u = true <->
  (Api.message u = None
   \/ exists m, Api.message u = Some m
                /\ (Api.id (Api.chat m) <> chat \/ Api.text m = None)).
Proof.
  unfold rejected, validate.
  destruct (Api.message u) as [m|]; [|split; auto].
  destruct (Js.strict_eq (Api.id (Api.chat m)) chat) eqn:E.
  - apply strict_eq_iff in E.
    destruct (Api.text m) eqn:T; split; intro H; try discriminate; auto.
    + destruct H as [H|(m' & Hm & [H|H])]; try discriminate;
        injection Hm as <-; congruence.
    + right. exists m. auto.
  - assert (Api.id (Api.chat m) <> chat) as Hne.
    { intro Heq. apply strict_eq_iff in Heq. congruence. }
    split; intro H; auto. right. exists m. auto.
Qed.

(** C3. A fresh update goes through the validator with exactly one
    event.  Without [message]: one error of kind InlineQueryUnsupported
    carrying the update.  With a message of another chat: one error of
    kind WrongChat carrying the message.  With a message of the
    configured chat but no [text]: one error of kind NonTextMessage
    carrying the message.  Otherwise one push of the text and no error.
    A rejection changes nothing of the instance but the offset, the
    listener delivers the same events, and the rest of a batch is
    processed after it. *)
Theorem validator_outcomes :
  forall (u : Api.Update) (s : State),
    _updatesOffset s <= Api.update_id u ->
    let s1 := set_updatesOffset (Js.add (Api.update_id u) 1) s in
    (Api.message u = None ->
       processUpdate u s
       = (Js.Undefined, s1,
          [Emit_error (reject_message InlineQueryUnsupported) (OfUpdate u)]))
    /\ (forall m, Api.message u = Some m ->
          Api.id (Api.chat m) <> chat_id s ->
          processUpdate u s
          = (Js.Undefined, s1,
             [Emit_error (reject_message WrongChat) (OfMessage m)]))
    /\ (forall m, Api.message u = Some m ->
          Api.id (Api.chat m) = chat_id s ->
          Api.text m = None ->
          processUpdate u s
          = (Js.Undefined, s1,
             [Emit_error (reject_message NonTextMessage) (OfMessage m)]))
    /\ (forall m text, Api.message u = Some m ->
          Api.id (Api.chat m) = chat_id s ->
          Api.text m = Some text ->
          processUpdate u s
          = (Js.Bool (snd (stream_push (_readableState s) (Some text))),
             set_readableState (fst (stream_push (_readableState s) (Some text))) s1,
             [Push (Some text)]))
    /\ on_data u s = (tt, state_of (processUpdate u s), trace_of (processUpdate u s))
    /\ (rejected (chat_id s) u = true ->
        forall rest : list Api.Update,
          trace_of (gotUpdates (u :: rest) s)
          = trace_of (processUpdate u s)
            ++ trace_of (pipeline_in_order rest (set_inFlight false s1))).
Proof.
  intros u s Hfresh s1.
  assert (Hobs : observe (Api.update_id u) (_updatesOffset s)
                 = Js.add (Api.update_id u) 1).
  { unfold observe. destruct (Api.update_id u >=? _updatesOffset s) eqn:E; [reflexivity|].
    rewrite Z.geb_leb in E. apply Z.leb_gt in E. lia. }
  pose proof (processUpdate_pipeline u s) as Hp. cbn zeta in Hp.
  rewrite Hobs in Hp. fold s1 in Hp.
  repeat split.
  - intros Hm. rewrite Hp. unfold validate. rewrite Hm. reflexivity.
  - intros m Hm Hne. rewrite Hp. unfold validate. rewrite Hm.
    destruct (Js.strict_eq (Api.id (Api.chat m)) (chat_id s)) eqn:E; [|reflexivity].
    apply strict_eq_iff in E. contradiction.
  - intros m Hm He Ht. rewrite Hp. unfold validate. rewrite Hm.
    apply strict_eq_iff in He. rewrite He, Ht. reflexivity.
  - intros m text Hm He Ht. rewrite Hp. unfold validate. rewrite Hm.
    apply strict_eq_iff in He. rewrite He, Ht. reflexivity.
  - unfold on_data. run_m.
    assert ((Api.update_id u >=? _updatesOffset s) = true) as ->.
    { rewrite Z.geb_leb. apply Z.leb_le. lia. }
    destruct (processUpdate u s) as [[r s'] t]. cbn. now rewrite app_nil_r.
  - intros Hrej rest. rewrite gotUpdates_pipeline.
    cbn [pipeline_in_order]. unfold bind.
    pose proof (track_then_validate_rejected u (set_inFlight false s)) as Hr.
    rewrite track_then_validate_eq in *.
    rewrite (processUpdate_pipeline u (set_inFlight false s)) in *.
    rewrite Hp. cbn zeta in *. cbn [chat_id set_inFlight _updatesOffset _readableState] in *.
    rewrite Hobs in *. unfold rejected in Hrej.
    destruct (validate (chat_id s) u) as [text|[kind data]]; [discriminate|].
    cbn.
    destruct (pipeline_in_order rest _) as [[flag s2] t2]. cbn.
    now rewrite !app_nil_r.
Qed.

(** The timer is set exactly when the pipeline's flag is true. *)
Lemma gotUpdates_timer (data : list Api.Update) (s : State) :
  existsb is_timer (trace_of (gotUpdates data s))
  = result_of (pipeline_in_order data (set_inFlight false s)).
Proof.
  rewrite gotUpdates_pipeline.
  destruct (pipeline_trace data (set_inFlight false s)) as [_ Hno].
  destruct (pipeline_in_order data (set_inFlight false s)) as [[flag s1] t1].
  unfold trace_of, result_of in *. cbn [fst snd] in *.
  rewrite existsb_app, Hno. destruct flag; reflexivity.
Qed.

(** C5. A fetched batch runs the pipeline over every update, in array
    order, each update leaving exactly one event, whatever the pushes
    before it answered; then [_read] is scheduled, 1000 ms later,
    exactly when the continue flag of the whole batch is true. *)
Theorem gotUpdates_processes_whole_batch :
  forall (data : list Api.Update) (s : State),
    gotUpdates data s
    = (modify (set_inFlight false) ;;
       continueFlag <- pipeline_in_order data ;;
       if continueFlag then tell [SetTimeout_read 1000] else ret tt) s
    /\ List.length (trace_of (pipeline_in_order data (set_inFlight false s)))
       = List.length data
    /\ existsb is_timer (trace_of (gotUpdates data s))
       = result_of (pipeline_in_order data (set_inFlight false s))
    /\ (forall delay : Z,
          In (SetTimeout_read delay) (trace_of (gotUpdates data s)) -> delay = 1000).
Proof.
  intros data s. rewrite gotUpdates_pipeline.
  destruct (pipeline_trace data (set_inFlight false s)) as [Hlen Hno].
  unfold bind, modify. cbn [app].
  destruct (pipeline_in_order data (set_inFlight false s)) as [[flag s1] t1].
  unfold trace_of, result_of in *. cbn [fst snd] in *.
  repeat split.
  - destruct flag; reflexivity.
  - exact Hlen.
  - rewrite existsb_app, Hno. destruct flag; reflexivity.
  - intros delay Hin. apply in_app_or in Hin. destruct Hin as [Hin|Hin].
    + assert (existsb is_timer t1 = true) as Hex
        by (apply existsb_exists; exists (SetTimeout_read delay); auto).
      congruence.
    + destruct flag; cbn in Hin; [|contradiction].
      destruct Hin as [Hin|[]]. congruence.
Qed.

Lemma run_callbacks_no_timer (cbs : list Callback) :
  forall s : State, existsb is_timer (trace_of (run_callbacks cbs s)) = false.
Proof.
  induction cbs as [|cb cbs IH]; intros s; [reflexivity|].
  cbn [run_callbacks]. rewrite bind_trace, existsb_app, IH, orb_false_r.
  destruct cb; cbn [run_callback].
  - unfold end_. run_m. split_push. reflexivity.
  - unfold closeWebhook. run_m. destruct (webhook s); reflexivity.
Qed.

Lemma gotUpdates_rejected_no_timer (data : list Api.Update) (s : State) :
  existsb (rejected (chat_id s)) data = true ->
  existsb is_timer (trace_of (gotUpdates data s)) = false.
Proof.
  intros H. rewrite gotUpdates_timer.
  apply (pipeline_rejected data (set_inFlight false s)). exact H.
Qed.

(** C10. When a fetched batch holds an update the validator rejects
    (no message, a message of another chat, or a message without
    text), no timer is set for that batch, neither by [gotUpdates] nor
    by anything else that runs when the fetch settles, whatever the
    other updates of the batch are. *)
Theorem rejected_update_stops_polling :
  forall (data : list Api.Update) (s : State),
    Exists (fun u =>
              Api.message u = None
              \/ exists m, Api.message u = Some m
                           /\ (Api.id (Api.chat m) <> chat_id s
                               \/ Api.text m = None)) data ->
    existsb is_timer (trace_of (gotUpdates data s)) = false
    /\ existsb is_timer (trace_of (on_fetch_settled (inr data) s)) = false.
Proof.
  intros data s H.
  assert (existsb (rejected (chat_id s)) data = true) as Hrej.
  { apply Exists_exists in H. destruct H as (u & Hin & Hu).
    apply existsb_exists. exists u. split; [exact Hin|].
    now apply validate_rejected_iff. }
  pose proof (gotUpdates_rejected_no_timer data s Hrej) as Hg.
  split; [exact Hg|].
  unfold on_fetch_settled. rewrite bind_trace, existsb_app, Hg. cbn [orb].
  rewrite bind_trace. cbn [get trace_of result_of state_of fst snd app].
  destruct (fetch _) as [[reactions|]|]; try reflexivity.
  rewrite bind_trace. cbn [modify trace_of result_of state_of fst snd app].
  apply run_callbacks_no_timer.
Qed.

(** C4. [_read] does nothing when a fetch is in flight, when the read
    buffer has no free capacity, when the stream has ended or [close]
    has stopped the polling, or when [webhook] is not [undefined]
    (webhook mode).  Otherwise it sets [inFlight] and calls
    [getUpdates] once, with the current offset, the free capacity as
    limit and timeout 0. *)
Theorem read_requests_more :
  forall s : State,
    (inFlight s = true
     \/ free_capacity s = 0
     \/ Stream.ended (_readableState s) = true
     \/ polling s = PNull
     \/ webhook s <> WRaw Js.Undefined ->
     _read s = (tt, s, []))
    /\ (inFlight s = false ->
        free_capacity s <> 0 ->
        Stream.ended (_readableState s) = false ->
        polling s <> PNull ->
        webhook s = WRaw Js.Undefined ->
        inFlight (state_of (_read s)) = true
        /\ _updatesOffset (state_of (_read s)) = _updatesOffset s
        /\ _readableState (state_of (_read s)) = _readableState s
        /\ trace_of (_read s)
           = [Api_getUpdates (_updatesOffset s) (free_capacity s) 0]).
Proof.
  intros s. unfold _read, free_capacity. run_m. split.
  - intros H.
    assert (inFlight s || Stream.ended (_readableState s)
            || (Js.sub (Stream.highWaterMark (_readableState s))
                  (Stream.length (_readableState s)) =? 0)
            || match polling s with PNull => true | _ => false end
            || negb (webhook_is Js.Undefined (webhook s)) = true) as ->;
      [|reflexivity].
    destruct H as [H|[H|[H|[H|H]]]].
    + rewrite H. reflexivity.
    + apply Z.eqb_eq in H. rewrite H. now rewrite !orb_true_r.
    + rewrite H. now rewrite !orb_true_r.
    + rewrite H. now rewrite !orb_true_r.
    + destruct (webhook s) as [[| | | |]|]; cbn;
        try (now rewrite !orb_true_r). contradiction.
  - intros Hf Hc He Hp Hw. rewrite Hf, He, Hw.
    apply Z.eqb_neq in Hc. rewrite Hc.
    destruct (polling s); try contradiction; cbn; auto.
Qed.

(** C1 (amended). An update below the offset that the listener
    delivers leaves no event and changes nothing.  In a fetched batch
    there is no such check: the update leaves the offset where it is,
    and is validated like any other, with its one ['data'] or
    ['error'] event.  The batch of two updates numbered 1 with texts
    [hi] and [dup], on a new instance for chat 42, gives the two
    ['data'] events [hi] and [dup] and leaves the offset at 2. *)
Theorem stale_update_outcomes :
  (data_events
     (trace_of (gotUpdates [text_update 1 42 "hi"; text_update 1 42 "dup"] polling_42))
   = ["hi"; "dup"]
   /\ _updatesOffset
        (state_of (gotUpdates [text_update 1 42 "hi"; text_update 1 42 "dup"] polling_42))
      = 2)
  /\ forall (u : Api.Update) (s : State),
       Api.update_id u < _updatesOffset s ->
       on_data u s = (tt, s, [])
       /\ _updatesOffset (state_of (processUpdate u s)) = _updatesOffset s
       /\ trace_of (processUpdate u s)
          = match validate (chat_id s) u with
            | inl text => [Push (Some text)]
            | inr (kind, data) => [Emit_error (reject_message kind) data]
            end.
Proof.
  split.
  - unfold gotUpdates, polling_42, text_update. cbn [reduce].
    unfold processUpdate_reduce, processUpdate. run_m. cbn.
    split_push. cbn. split_push. cbn. destruct b, b0; cbn; auto.
  - intros u s Hstale.
    assert ((Api.update_id u >=? _updatesOffset s) = false) as E.
    { rewrite Z.geb_leb. apply Z.leb_gt. exact Hstale. }
    repeat split.
    + unfold on_data. run_m. rewrite E. reflexivity.
    + rewrite processUpdate_pipeline. cbn zeta. unfold observe. rewrite E.
      destruct (validate (chat_id s) u) as [text|[kind data]]; reflexivity.
    + rewrite processUpdate_pipeline. cbn zeta.
      destruct (validate (chat_id s) u) as [text|[kind data]]; reflexivity.
Qed.

Lemma primitive_empty_like (p : Primitive) :
  primitive_loose_eq_empty p = true <-> empty_like p.
Proof.
  unfold empty_like. destruct p as [[| |[|]|n|str]|n|json|]; cbn;
    try (split; [discriminate|intros [H|[H|[H|H]]]; discriminate]);
    try (split; [tauto|reflexivity]).
  - destruct (Z.eqb_spec n 0) as [->|Hn]; split; try tauto; try discriminate.
    intros [H|[H|[H|H]]]; congruence.
  - destruct (String.eqb_spec str "") as [->|Hn]; split; try tauto; try discriminate.
    intros [H|[H|[H|H]]]; congruence.
  - destruct (Z.eqb_spec n 0) as [->|Hn]; split; try tauto; try discriminate.
    intros [H|[H|[H|H]]]; congruence.
Qed.

(** The guard of [_write] is true exactly on the payloads listed. *)
Lemma write_guard (chunk : Chunk) :
  (chunk_loose_eq_null chunk = true \/ chunk_loose_eq_empty chunk = Some true)
  <-> acknowledged_unsent chunk.
Proof.
  unfold acknowledged_unsent. split.
  - intros [H|H].
    + destruct chunk as [[[| |b|n|str]|n|json|]|p json]; try discriminate; auto.
    + right. right. destruct chunk as [p|[p|] json]; try discriminate;
        injection H as H; apply primitive_empty_like in H; exists p; eauto.
  - intros [->|[->|(p & Hp & [->|(json & ->)])]]; auto;
      right; cbn; f_equal; now apply primitive_empty_like.
Qed.

(** C9 (amended). [_write] acknowledges at once, without any call to
    the API, a payload that is [undefined], [null] or loosely equal to
    the empty string: the empty string, 0, [false], the BigInt 0, or
    an object whose primitive value is one of these.  For any other
    payload, when its conversion to a primitive or [JSON.stringify]
    throws, the exception leaves [_write] and nothing is called or
    acknowledged; otherwise [_write] calls [sendMessage] once, with
    the configured chat and what [JSON.stringify] made of the payload,
    and does not acknowledge; the write is acknowledged when that
    call settles, with the call's outcome. *)
Theorem write_outcomes :
  forall (chunk : Chunk) (s : State),
    (acknowledged_unsent chunk -> _write chunk s = (tt, s, [Done None]))
    /\ (~ acknowledged_unsent chunk ->
        _write chunk s
        = (tt, s,
           match chunk_loose_eq_empty chunk, JSON_stringify chunk with
           | None, _ | _, Stringify_throws => [Thrown_from_write]
           | _, Text t => [Api_sendMessage (chat_id s) (Some t)]
           | _, No_text => [Api_sendMessage (chat_id s) None]
           end))
    /\ (chunk_loose_eq_empty chunk = None <-> exists json, chunk = CObj None json)
    /\ (forall outcome : option Api.Error, on_sent outcome s = (tt, s, [Done outcome])).
Proof.
  intros chunk s. repeat split.
  - intros H. apply write_guard in H. unfold _write.
    destruct H as [->|H]; [reflexivity|].
    rewrite H. destruct (chunk_loose_eq_null chunk); reflexivity.
  - intros H. unfold _write.
    destruct (chunk_loose_eq_null chunk) eqn:En.
    { exfalso. apply H, write_guard. auto. }
    destruct (chunk_loose_eq_empty chunk) as [[|]|] eqn:Ee.
    + exfalso. apply H, write_guard. auto.
    + destruct (JSON_stringify chunk); reflexivity.
    + reflexivity.
  - destruct chunk as [p|[p|] json]; try discriminate. eauto.
  - intros (json & ->). reflexivity.
Qed.

(** *** [close] in polling mode, once a fetch was made *)

(** While the fetch is pending, [close] only leaves [end] as a
    reaction on it and stops the polling. *)
Lemma close_while_fetching (s : State) (reactions : list Callback) :
  webhook s = WRaw Js.Undefined ->
  polling s = PPromise ->
  fetch s = Some (Pending reactions) ->
  close s
  = (tt, set_polling PNull (set_fetch (Some (Pending (reactions ++ [Cb_end]))) s), []).
Proof.
  intros Hw Hp Hf. unfold close, then_end. run_m. rewrite Hw, Hp. cbn.
  rewrite Hf. reflexivity.
Qed.

(** The reaction runs when the fetch settles, after its handler. *)
Lemma fetch_settled_then_end (outcome : Api.Error + list Api.Update) (s : State) :
  fetch s = Some (Pending [Cb_end]) ->
  trace_of (on_fetch_settled outcome s)
  = trace_of (match outcome with
              | inr data => gotUpdates data s
              | inl error => onError error s
              end) ++ [Push None].
Proof.
  intros Hf. unfold on_fetch_settled. rewrite bind_trace. f_equal.
  - destruct outcome; reflexivity.
  - set (s1 := state_of _).
    assert (fetch s1 = Some (Pending [Cb_end])) as Hf1.
    { subst s1. destruct outcome as [error|data].
      - unfold onError. run_m. exact Hf.
      - rewrite gotUpdates_pipeline.
        assert (forall l s0, fetch (state_of (pipeline_in_order l s0)) = fetch s0) as Hpipe.
        { induction l as [|u l IH]; intros s0; [reflexivity|].
          cbn [pipeline_in_order]. rewrite !bind_state. cbn [ret state_of fst snd].
          change (snd (fst (pipeline_in_order l (state_of (track_then_validate u s0)))))
            with (state_of (pipeline_in_order l (state_of (track_then_validate u s0)))).
          rewrite IH, track_then_validate_eq, processUpdate_pipeline. cbn zeta.
          destruct (validate (chat_id s0) u) as [text|[kind d]]; reflexivity. }
        specialize (Hpipe data (set_inFlight false s)).
        destruct (pipeline_in_order data (set_inFlight false s)) as [[flag s2] t2].
        unfold state_of in *. cbn in *. congruence. }
    rewrite bind_trace. cbn [get trace_of result_of state_of fst snd app].
    rewrite Hf1. cbn [run_callbacks run_callback]. run_m. cbn.
    split_push. reflexivity.
Qed.

(** After the fetch has settled, [close] signals the end at once. *)
Lemma close_after_fetch (s : State) :
  webhook s = WRaw Js.Undefined ->
  polling s = PPromise ->
  fetch s = Some Settled ->
  trace_of (close s) = [Push None]
  /\ polling (state_of (close s)) = PNull.
Proof.
  intros Hw Hp Hf. unfold close, then_end. run_m. rewrite Hw, Hp. cbn.
  rewrite Hf. run_m. split_push. cbn. auto.
Qed.

(** C6 (the code on the failing input). On a new polling instance that
    has not fetched yet, [close] does nothing: no end of data is
    signalled, and a later [_read] still calls [getUpdates]. *)
Theorem close_before_first_fetch :
  TelegramLog (Config.TokenValue (Js.Str "token")) (Js.Num 42) None
  = ([Api_new (Js.Str "token")], inr polling_42)
  /\ close polling_42 = (tt, polling_42, [])
  /\ signals_end (trace_of (run [Call_close] polling_42)) = false
  /\ trace_of (run [Call_close; Call_read] polling_42) = [Api_getUpdates 0 16 0].
Proof. repeat split. Qed.

(** *** [close] in webhook mode *)

(** Once [webhook] is [null], [close] does nothing. *)
Lemma close_when_closed (s : State) :
  webhook s = WRaw Js.Null -> close s = (tt, s, []).
Proof. intros H. unfold close. run_m. rewrite H. reflexivity. Qed.

(** In polling mode a second [close] in a row does nothing. *)
Lemma close_twice_polling (s : State) :
  webhook s = WRaw Js.Undefined ->
  close (state_of (close s)) = (tt, state_of (close s), []).
Proof.
  intros Hw. unfold close at 1 3. unfold close, then_end. run_m. rewrite Hw. cbn.
  destruct (polling s) eqn:Hp; cbn; rewrite ?Hw, ?Hp; cbn; try reflexivity.
  destruct (fetch s) as [[reactions|]|]; cbn; rewrite ?Hw; cbn; try reflexivity.
  split_push. cbn. rewrite Hw. reflexivity.
Qed.

(** C7 (the code on the failing input). On a listening instance, two
    calls of [close] in a row make two unregistration calls; when both
    have settled the listener has been closed once and the second
    [closeWebhook] has thrown on [null]. *)
Theorem close_twice_while_unregistering :
  TelegramLog (Config.TokenValue (Js.Str "token")) (Js.Num 42) (Some webhook_443)
  = ([Api_new (Js.Str "token"); WebhookPost_create (Config.WPrim (Js.Num 443))],
     inr listening_443)
  /\ trace_of (run [Call_close; Call_close] listening_443)
     = [Api_setWebhook None (Js.Str ""); Api_setWebhook None (Js.Str "")]
  /\ trace_of (run [Call_close; Call_close;
                    Unregister_settled 0; Unregister_settled 0] listening_443)
     = [Api_setWebhook None (Js.Str ""); Api_setWebhook None (Js.Str "");
        WebhookPost_close; Uncaught_TypeError].
Proof. repeat split. Qed.

(** *** Construction *)

(** Nothing reaches the network before the constructor throws. *)
Lemma TelegramLog_throws_before_network (token : Config.TokenArg)
    (chat : Js.value) (options : option Config.Options)
    (t : list Effect) (e : Thrown) :
  TelegramLog token chat options = (t, inl e) -> existsb is_network t = false.
Proof.
  unfold TelegramLog. intros H.
  repeat match type of H with
         | context [match ?x with _ => _ end] => destruct x
         end;
    try discriminate; injection H as <- _; reflexivity.
Qed.

(** A falsy token or chat identifier, and a port that is a number
    other than 0, 80, 88, 443 and 8443, make the constructor throw. *)
Lemma TelegramLog_rejects (token chat : Js.value) (options : option Config.Options) :
  (Js.truthy token = false -> exists e, snd (TelegramLog (Config.TokenValue token) chat options) = inl e)
  /\ (Js.truthy chat = false -> exists e, snd (TelegramLog (Config.TokenValue token) chat options) = inl e)
  /\ (forall (n : Z) (o : Config.Options),
        Js.truthy token = true -> Js.truthy chat = true ->
        options = Some o -> Stream.accepts (Config.highWaterMark o) = true ->
        Config.webhook o = Config.WPrim (Js.Num n) ->
        n <> 0 -> ~ supported_port n ->
        TelegramLog (Config.TokenValue token) chat options
        = ([Api_new token], inl (RangeError_port (Config.PortValue (Js.Num n))))).
Proof.
  repeat split.
  - intros H. unfold TelegramLog.
    destruct token; try (eexists; reflexivity); cbv beta iota zeta;
      rewrite H; destruct (negb (Stream.accepts _)); eexists; reflexivity.
  - intros H. unfold TelegramLog.
    destruct token; try (eexists; reflexivity); cbv beta iota zeta;
      rewrite H; destruct (negb (Stream.accepts _)); try (eexists; reflexivity);
      destruct (negb (Js.truthy _)); eexists; reflexivity.
  - intros n o Ht Hc -> Hh Hw Hn Hs. unfold TelegramLog, supported_port in *.
    assert (port_rejected (Config.PortValue (Js.Num n)) = true) as Hport.
    { cbn. destruct (Z.eqb_spec n 80); [lia|]. destruct (Z.eqb_spec n 88); [lia|].
      destruct (Z.eqb_spec n 443); [lia|]. destruct (Z.eqb_spec n 8443); [lia|].
      reflexivity. }
    assert (Js.truthy (Js.Num n) = true) as Hnum
      by (cbn; apply Z.eqb_neq in Hn; now rewrite Hn).
    destruct token; try discriminate; cbv beta iota zeta;
      rewrite Hh, Ht, Hc, Hw;
      cbn [negb webhook_option_truthy webhook_option_not_string port_of andb];
      rewrite Hnum, Hport; reflexivity.
Qed.

(** C8 (the code on the failing input). A webhook given as an object
    with a host name and no port makes the constructor throw the port
    error, before any network activity; port 8080 is refused in the
    same way. *)
Theorem webhook_object_without_port_throws :
  TelegramLog (Config.TokenValue (Js.Str "token")) (Js.Num 42)
    (Some webhook_without_port)
  = ([Api_new (Js.Str "token")], inl (RangeError_port Config.PortIsWebhookObject))
  /\ TelegramLog (Config.TokenValue (Js.Str "token")) (Js.Num 42) (Some webhook_8080)
     = ([Api_new (Js.Str "token")],
        inl (RangeError_port (Config.PortValue (Js.Num 8080)))).
Proof. split; reflexivity. Qed.

(** ** Further properties of the instance *)

(** *** What the handlers leave alone *)

Lemma processUpdate_control (u : Api.Update) (s : State) :
  control (state_of (processUpdate u s)) = control s.
Proof.
  rewrite processUpdate_pipeline. cbn zeta.
  destruct (validate (chat_id s) u) as [text|[kind d]]; reflexivity.
Qed.

Lemma track_then_validate_control (u : Api.Update) (s : State) :
  control (state_of (track_then_validate u s)) = control s.
Proof.
  rewrite track_then_validate_eq. pose proof (processUpdate_control u s) as H.
  destruct (processUpdate u s) as [[r s1] t1]. exact H.
Qed.

Lemma pipeline_state (u : Api.Update) (rest : list Api.Update) (s : State) :
  state_of (pipeline_in_order (u :: rest) s)
  = state_of (pipeline_in_order rest (state_of (track_then_validate u s))).
Proof.
  cbn [pipeline_in_order]. rewrite !bind_state. reflexivity.
Qed.

Lemma pipeline_trace_cons (u : Api.Update) (rest : list Api.Update) (s : State) :
  trace_of (pipeline_in_order (u :: rest) s)
  = trace_of (track_then_validate u s)
    ++ trace_of (pipeline_in_order rest (state_of (track_then_validate u s))).
Proof.
  cbn [pipeline_in_order]. rewrite !bind_trace. cbn [ret trace_of snd].
  now rewrite app_nil_r.
Qed.

Lemma pipeline_control (data : list Api.Update) :
  forall s : State, control (state_of (pipeline_in_order data s)) = control s.
Proof.
  induction data as [|u rest IH]; intros s; [reflexivity|].
  rewrite pipeline_state, IH. apply track_then_validate_control.
Qed.

Lemma gotUpdates_state (data : list Api.Update) (s : State) :
  state_of (gotUpdates data s)
  = state_of (pipeline_in_order data (set_inFlight false s)).
Proof.
  rewrite gotUpdates_pipeline.
  destruct (pipeline_in_order data (set_inFlight false s)) as [[flag s1] t1].
  reflexivity.
Qed.

Lemma gotUpdates_trace (data : list Api.Update) (s : State) :
  trace_of (gotUpdates data s)
  = trace_of (pipeline_in_order data (set_inFlight false s))
    ++ (if result_of (pipeline_in_order data (set_inFlight false s))
        then [SetTimeout_read 1000] else []).
Proof.
  rewrite gotUpdates_pipeline.
  destruct (pipeline_in_order data (set_inFlight false s)) as [[flag s1] t1].
  reflexivity.
Qed.

Lemma end_control (s : State) : control (state_of (end_ s)) = control s.
Proof. unfold end_. run_m. split_push. reflexivity. Qed.

Lemma end_trace (s : State) : trace_of (end_ s) = [Push None].
Proof. unfold end_. run_m. split_push. reflexivity. Qed.

(** One update leaves an error or a push of its text, nothing else. *)
Lemma track_then_validate_events (u : Api.Update) (s : State) :
  trace_of (track_then_validate u s)
  = match validate (chat_id s) u with
    | inl text => [Push (Some text)]
    | inr (kind, d) => [Emit_error (reject_message kind) d]
    end.
Proof.
  rewrite track_then_validate_eq, processUpdate_pipeline. cbn zeta.
  destruct (validate (chat_id s) u) as [text|[kind d]]; reflexivity.
Qed.

Lemma pipeline_no_api (data : list Api.Update) :
  forall s : State, existsb is_api_call (trace_of (pipeline_in_order data s)) = false.
Proof.
  induction data as [|u rest IH]; intros s; [reflexivity|].
  rewrite pipeline_trace_cons, existsb_app, IH, orb_false_r.
  rewrite track_then_validate_events.
  destruct (validate (chat_id s) u) as [text|[kind d]]; reflexivity.
Qed.

Lemma pipeline_no_webhook_effect (data : list Api.Update) :
  forall s : State,
    existsb is_webhook_effect (trace_of (pipeline_in_order data s)) = false.
Proof.
  induction data as [|u rest IH]; intros s; [reflexivity|].
  rewrite pipeline_trace_cons, existsb_app, IH, orb_false_r.
  rewrite track_then_validate_events.
  destruct (validate (chat_id s) u) as [text|[kind d]]; reflexivity.
Qed.

(** The reactions of a settled promise: they call nothing of the API
    and at most put [null] into [webhook]. *)
Lemma run_callback_frame (cb : Callback) (s : State) :
  let s' := state_of (run_callback cb s) in
  chat_id s' = chat_id s /\ certificate s' = certificate s
  /\ polling s' = polling s /\ inFlight s' = inFlight s
  /\ fetch s' = fetch s /\ unregistering s' = unregistering s
  /\ (webhook s' = webhook s \/ webhook s = WListener /\ webhook s' = WRaw Js.Null)
  /\ existsb is_api_call (trace_of (run_callback cb s)) = false.
Proof.
  destruct cb; cbn [run_callback].
  - unfold end_. run_m. split_push. cbn. intuition congruence.
  - unfold closeWebhook. run_m. destruct (webhook s) eqn:E; cbn; intuition congruence.
Qed.

Lemma run_callbacks_frame (cbs : list Callback) :
  forall s : State,
    let s' := state_of (run_callbacks cbs s) in
    chat_id s' = chat_id s /\ certificate s' = certificate s
    /\ polling s' = polling s /\ inFlight s' = inFlight s
    /\ fetch s' = fetch s /\ unregistering s' = unregistering s
    /\ (webhook s' = webhook s \/ webhook s = WListener /\ webhook s' = WRaw Js.Null)
    /\ existsb is_api_call (trace_of (run_callbacks cbs s)) = false.
Proof.
  induction cbs as [|cb cbs IH]; intros s; [cbn; tauto|].
  cbn [run_callbacks]. cbn zeta. rewrite bind_state, bind_trace, existsb_app.
  destruct (run_callback_frame cb s) as (H1 & H2 & H3 & H4 & H5 & H6 & H7 & H8).
  destruct (IH (state_of (run_callback cb s))) as (I1 & I2 & I3 & I4 & I5 & I6 & I7 & I8).
  rewrite I1, I2, I3, I4, I5, I6, H8, I8.
  repeat split; try assumption.
  destruct I7 as [I7|[I7 I7']], H7 as [H7|[H7 H7']];
    try (left; congruence); try (right; split; congruence).
Qed.

Lemma control_fields (s s' : State) :
  control s' = control s ->
  chat_id s' = chat_id s /\ certificate s' = certificate s
  /\ webhook s' = webhook s /\ polling s' = polling s
  /\ inFlight s' = inFlight s /\ fetch s' = fetch s
  /\ unregistering s' = unregistering s.
Proof. unfold control. intros H. injection H. auto 10. Qed.

Lemma fetch_handler_frame (outcome : Api.Error + list Api.Update) (s : State) :
  control (state_of (match outcome with
                     | inr data => gotUpdates data
                     | inl error => onError error
                     end s))
  = control (set_inFlight false s)
  /\ existsb is_api_call
       (trace_of (match outcome with
                  | inr data => gotUpdates data
                  | inl error => onError error
                  end s)) = false.
Proof.
  destruct outcome as [error|data].
  - unfold onError. run_m. auto.
  - rewrite gotUpdates_state, gotUpdates_trace, pipeline_control, existsb_app,
      pipeline_no_api.
    split; [reflexivity|].
    destruct (result_of _); reflexivity.
Qed.

(** When a fetch settles: the flag is cleared, nothing of the API is
    called, and the mode of the instance stays. *)
Lemma on_fetch_settled_frame (outcome : Api.Error + list Api.Update) (s : State) :
  let s' := state_of (on_fetch_settled outcome s) in
  chat_id s' = chat_id s /\ certificate s' = certificate s
  /\ polling s' = polling s /\ inFlight s' = false
  /\ unregistering s' = unregistering s
  /\ (webhook s' = webhook s \/ webhook s = WListener /\ webhook s' = WRaw Js.Null)
  /\ existsb is_api_call (trace_of (on_fetch_settled outcome s)) = false.
Proof.
  unfold on_fetch_settled. cbn zeta. rewrite bind_state, bind_trace, existsb_app.
  destruct (fetch_handler_frame outcome s) as [Hc Ht]. rewrite Ht. cbn [orb].
  apply control_fields in Hc.
  destruct Hc as (C1 & C2 & C3 & C4 & C5 & C6 & C7).
  cbn [set_inFlight chat_id certificate webhook polling inFlight fetch unregistering] in *.
  set (s1 := state_of _) in *.
  rewrite bind_state, bind_trace.
  cbn [get result_of state_of trace_of fst snd app].
  destruct (fetch s1) as [[reactions|]|]; cbn [ret fst snd existsb];
    try (repeat split; auto; fail).
  rewrite bind_state, bind_trace.
  cbn [modify result_of state_of trace_of fst snd app].
  destruct (run_callbacks_frame reactions (set_fetch (Some Settled) s1))
    as (H1 & H2 & H3 & H4 & H5 & H6 & H7 & H8).
  cbn [set_fetch chat_id certificate webhook polling inFlight unregistering] in *.
  rewrite H1, H2, H3, H4, H6, H8, C1, C2, C4, C5, C7.
  repeat split; auto.
  destruct H7 as [H7|[H7 H7']]; [left|right; split]; congruence.
Qed.

Lemma on_data_frame (update : Api.Update) (s : State) :
  control (state_of (on_data update s)) = control s
  /\ existsb is_api_call (trace_of (on_data update s)) = false.
Proof.
  unfold on_data. run_m.
  destruct (Api.update_id update >=? _updatesOffset s); [|auto].
  pose proof (processUpdate_control update s) as Hc.
  rewrite processUpdate_pipeline in *. cbn zeta in *.
  destruct (validate (chat_id s) update) as [text|[kind d]]; cbn in *; auto.
Qed.

Lemma on_unregister_settled_frame (n : nat) (s : State) :
  let s' := state_of (on_unregister_settled n s) in
  chat_id s' = chat_id s /\ certificate s' = certificate s
  /\ polling s' = polling s /\ inFlight s' = inFlight s
  /\ (webhook s' = webhook s \/ webhook s = WListener /\ webhook s' = WRaw Js.Null)
  /\ existsb is_api_call (trace_of (on_unregister_settled n s)) = false.
Proof.
  unfold on_unregister_settled. cbn zeta. rewrite bind_state, bind_trace.
  cbn [get result_of state_of trace_of fst snd app].
  destruct (nth_error (unregistering s) n) as [cb|]; [|cbn; auto 10].
  rewrite bind_state, bind_trace.
  cbn [modify result_of state_of trace_of fst snd app].
  destruct (run_callback_frame cb (set_unregistering (remove_nth n (unregistering s)) s))
    as (H1 & H2 & H3 & H4 & H5 & H6 & H7 & H8).
  cbn [set_unregistering chat_id certificate webhook polling inFlight] in *.
  auto 10.
Qed.

(** Every input keeps the chat and the certificate, and [webhook]
    either stays or becomes [null]. *)
Lemma step_frame (i : Input) (s : State) :
  let s' := state_of (step i s) in
  chat_id s' = chat_id s /\ certificate s' = certificate s
  /\ (webhook s' = webhook s \/ webhook s' = WRaw Js.Null).
Proof.
  destruct i; cbn [step]; cbn zeta.
  - unfold _read. run_m. break_match; auto.
  - unfold _write. run_m. break_match; auto.
  - unfold close, then_end. run_m. break_match; split_push; cbn; auto.
  - unfold _read. run_m. break_match; auto.
  - destruct (on_fetch_settled_frame outcome s) as (H1 & H2 & _ & _ & _ & H & _).
    cbn zeta in *. intuition.
  - cbn. auto.
  - cbn. auto.
  - destruct (on_data_frame update s) as [Hc _]. apply control_fields in Hc.
    intuition.
  - cbn. auto.
  - unfold on_end. run_m. break_match; split_push; cbn; auto.
  - unfold on_register_failed. run_m. split_push. cbn. auto.
  - destruct (on_unregister_settled_frame n s) as (H1 & H2 & _ & _ & H & _).
    cbn zeta in *. intuition.
Qed.

(** The calls to the API an input can cause: one [getUpdates] for the
    current offset and free capacity, made only when no fetch is in
    flight, polling was not stopped and there is no webhook; a
    [sendMessage] to the configured chat; a [setWebhook] with the
    instance's certificate. *)
Lemma step_api_calls (i : Input) (s : State) (e : Effect) :
  In e (trace_of (step i s)) ->
  is_api_call e = true ->
  (e = Api_getUpdates (_updatesOffset s) (free_capacity s) 0
   /\ trace_of (step i s) = [e]
   /\ inFlight s = false /\ polling s <> PNull /\ webhook s = WRaw Js.Undefined
   /\ inFlight (state_of (step i s)) = true)
  \/ (exists text, e = Api_sendMessage (chat_id s) text)
  \/ (exists url, e = Api_setWebhook url (certificate s)).
Proof.
  assert (Hread : In e (trace_of (_read s)) ->
                  e = Api_getUpdates (_updatesOffset s) (free_capacity s) 0
                  /\ trace_of (_read s) = [e]
                  /\ inFlight s = false /\ polling s <> PNull
                  /\ webhook s = WRaw Js.Undefined
                  /\ inFlight (state_of (_read s)) = true).
  { unfold _read, free_capacity. run_m.
    destruct (inFlight s); cbn; [tauto|].
    destruct (Stream.ended (_readableState s)); cbn; [tauto|].
    destruct (_ =? 0); cbn; [tauto|].
    destruct (polling s); cbn; try tauto;
      destruct (webhook s) as [[| | | |]|]; cbn; try tauto;
      intros [<-|[]]; repeat split; congruence. }
  assert (Hno : existsb is_api_call (trace_of (step i s)) = false ->
                In e (trace_of (step i s)) -> is_api_call e = true -> False).
  { intros Hex Hin He.
    assert (existsb is_api_call (trace_of (step i s)) = true)
      by (apply existsb_exists; eauto).
    congruence. }
  destruct i; cbn [step] in *; intros Hin He.
  - left. auto.
  - right. left. revert Hin. unfold _write. run_m.
    break_match; cbn; intros [<-|[]]; try discriminate; eauto.
  - right. right. revert Hin. unfold close, then_end. run_m.
    break_match; split_push; cbn; intros Hin;
      repeat (destruct Hin as [<-|Hin]); try contradiction; try discriminate; eauto.
  - left. auto.
  - exfalso. apply Hno; auto. apply on_fetch_settled_frame.
  - exfalso. apply Hno; auto.
  - right. right. destruct Hin as [<-|[]]. eauto.
  - exfalso. apply Hno; auto. apply on_data_frame.
  - exfalso. apply Hno; auto.
  - right. right. revert Hin. unfold on_end. run_m.
    break_match; split_push; cbn; intros Hin;
      repeat (destruct Hin as [<-|Hin]); try contradiction; try discriminate; eauto.
  - exfalso. apply Hno; auto. unfold on_register_failed. run_m. split_push.
    reflexivity.
  - exfalso. apply Hno; auto. apply on_unregister_settled_frame.
Qed.

(** *** Over whole histories *)

Lemma run_cons_state (i : Input) (inputs : list Input) (s : State) :
  state_of (run (i :: inputs) s) = state_of (run inputs (state_of (step i s))).
Proof. cbn [run]. now rewrite bind_state. Qed.

Lemma run_cons_trace (i : Input) (inputs : list Input) (s : State) :
  trace_of (run (i :: inputs) s)
  = trace_of (step i s) ++ trace_of (run inputs (state_of (step i s))).
Proof. cbn [run]. now rewrite bind_trace. Qed.

Lemma run_frame (inputs : list Input) :
  forall s : State,
    chat_id (state_of (run inputs s)) = chat_id s
    /\ certificate (state_of (run inputs s)) = certificate s
    /\ (webhook (state_of (run inputs s)) = webhook s
        \/ webhook (state_of (run inputs s)) = WRaw Js.Null).
Proof.
  induction inputs as [|i inputs IH]; intros s; [cbn; auto|].
  rewrite run_cons_state.
  destruct (step_frame i s) as (H1 & H2 & H3). cbn zeta in *.
  destruct (IH (state_of (step i s))) as (I1 & I2 & I3).
  rewrite I1, I2, H1, H2. repeat split.
  destruct I3 as [I3|I3]; rewrite I3; auto.
Qed.

Lemma run_api_calls (inputs : list Input) :
  forall (s : State) (e : Effect),
    In e (trace_of (run inputs s)) ->
    is_api_call e = true ->
    (exists offset limit, e = Api_getUpdates offset limit 0)
    \/ (exists text, e = Api_sendMessage (chat_id s) text)
    \/ (exists url, e = Api_setWebhook url (certificate s)).
Proof.
  induction inputs as [|i inputs IH]; intros s e Hin He; [contradiction|].
  rewrite run_cons_trace in Hin. apply in_app_or in Hin.
  destruct Hin as [Hin|Hin].
  - destruct (step_api_calls i s e Hin He) as [(-> & _)|[H|H]]; eauto.
  - destruct (step_frame i s) as (H1 & H2 & _). cbn zeta in *.
    specialize (IH _ _ Hin He). rewrite H1, H2 in IH. exact IH.
Qed.

(** X1. Whatever happens to an instance, every message it sends goes to
    the chat it was configured with, and that chat never changes. *)
Theorem messages_go_to_the_configured_chat :
  forall (inputs : list Input) (s : State),
    chat_id (state_of (run inputs s)) = chat_id s
    /\ forall (chat : Js.value) (text : option string),
         In (Api_sendMessage chat text) (trace_of (run inputs s)) ->
         chat = chat_id s.
Proof.
  intros inputs s. split; [apply run_frame|].
  intros chat text Hin.
  destruct (run_api_calls inputs s _ Hin eq_refl)
    as [(o & l & H)|[(t & H)|(u & H)]]; congruence.
Qed.

(** X2. Registration and unregistration carry the same certificate, the
    one fixed at construction: every [setWebhook] call of a history
    has it. *)
Theorem setWebhook_carries_the_certificate :
  forall (inputs : list Input) (s : State) (url : option string) (c : Js.value),
    In (Api_setWebhook url c) (trace_of (run inputs s)) ->
    c = certificate s.
Proof.
  intros inputs s url c Hin.
  destruct (run_api_calls inputs s _ Hin eq_refl)
    as [(o & l & H)|[(t & H)|(u & H)]]; congruence.
Qed.

Lemma no_api_no_getUpdates (t : list Effect) :
  existsb is_api_call t = false -> count_getUpdates t = 0%nat.
Proof.
  unfold count_getUpdates.
  induction t as [|e t IH]; [reflexivity|]. cbn [existsb filter].
  intros H. apply orb_false_iff in H. destruct H as [He Ht].
  destruct e; cbn in *; try discriminate; auto.
Qed.

Lemma step_in_flight (i : Input) (s : State) :
  (count_getUpdates (trace_of (step i s)) + Nat.b2n (inFlight s)
   <= Nat.b2n (is_fetch_settled i) + Nat.b2n (inFlight (state_of (step i s))))%nat.
Proof.
  assert (Hread : (count_getUpdates (trace_of (_read s)) + Nat.b2n (inFlight s)
                   <= Nat.b2n (inFlight (state_of (_read s))))%nat).
  { unfold _read. run_m. destruct (inFlight s) eqn:E; cbn; rewrite ?E; [cbn; lia|].
    break_match; cbn; rewrite ?E; cbn; lia. }
  destruct i; cbn [step is_fetch_settled Nat.b2n].
  - exact Hread.
  - unfold _write. run_m. break_match; cbn; lia.
  - unfold close, then_end. run_m. break_match; split_push; cbn; lia.
  - exact Hread.
  - destruct (on_fetch_settled_frame outcome s) as (_ & _ & _ & H & _ & _ & Hn).
    cbn zeta in H. rewrite H, (no_api_no_getUpdates _ Hn).
    destruct (inFlight s); cbn; lia.
  - cbn. lia.
  - cbn. lia.
  - destruct (on_data_frame update s) as [Hc Hn]. apply control_fields in Hc.
    destruct Hc as (_ & _ & _ & _ & -> & _). rewrite (no_api_no_getUpdates _ Hn). lia.
  - cbn. lia.
  - unfold on_end. run_m. break_match; split_push; cbn; lia.
  - unfold on_register_failed. run_m. split_push. cbn. lia.
  - destruct (on_unregister_settled_frame n s) as (_ & _ & _ & H & _ & Hn).
    cbn zeta in H. rewrite H, (no_api_no_getUpdates _ Hn). lia.
Qed.

(** X3. At most one fetch is in flight: over any history, the [getUpdates]
    calls made are at most one more than the fetches that have
    settled, and no more than those when a fetch was already pending
    at the start. *)
Theorem at_most_one_fetch_in_flight :
  forall (inputs : list Input) (s : State),
    (count_getUpdates (trace_of (run inputs s)) + Nat.b2n (inFlight s)
     <= count_fetch_settled inputs + 1)%nat.
Proof.
  intros inputs s.
  enough (count_getUpdates (trace_of (run inputs s)) + Nat.b2n (inFlight s)
          <= count_fetch_settled inputs
             + Nat.b2n (inFlight (state_of (run inputs s))))%nat as H.
  { destruct (inFlight (state_of (run inputs s))); cbn in H; lia. }
  revert s. induction inputs as [|i inputs IH]; intros s; [cbn; lia|].
  rewrite run_cons_trace, run_cons_state.
  pose proof (step_in_flight i s) as Hs.
  specialize (IH (state_of (step i s))).
  unfold count_getUpdates, count_fetch_settled in *.
  rewrite filter_app, length_app. cbn [filter].
  destruct (is_fetch_settled i); cbn [List.length Nat.b2n] in *; lia.
Qed.

Lemma in_getUpdates_exists (t : list Effect) :
  existsb is_getUpdates t = true ->
  exists o l w, In (Api_getUpdates o l w) t.
Proof.
  intros H. apply existsb_exists in H. destruct H as (e & Hin & He).
  destruct e; try discriminate. eauto.
Qed.

Lemma step_stopped (i : Input) (s : State) :
  polling s = PNull ->
  polling (state_of (step i s)) = PNull
  /\ existsb is_getUpdates (trace_of (step i s)) = false.
Proof.
  intros Hp. split.
  - destruct i; cbn [step].
    + unfold _read. run_m. rewrite Hp. now rewrite !orb_true_r.
    + unfold _write. run_m. break_match; auto.
    + unfold close, then_end. run_m. rewrite Hp. break_match; auto.
    + unfold _read. run_m. rewrite Hp. now rewrite !orb_true_r.
    + destruct (on_fetch_settled_frame outcome s) as (_ & _ & H & _).
      cbn zeta in H. congruence.
    + exact Hp.
    + exact Hp.
    + destruct (on_data_frame update s) as [Hc _]. apply control_fields in Hc.
      destruct Hc as (_ & _ & _ & -> & _). exact Hp.
    + exact Hp.
    + unfold on_end. run_m. break_match; split_push; auto.
    + unfold on_register_failed. run_m. split_push. auto.
    + destruct (on_unregister_settled_frame n s) as (_ & _ & H & _).
      cbn zeta in H. congruence.
  - destruct (existsb is_getUpdates (trace_of (step i s))) eqn:E; [|reflexivity].
    apply in_getUpdates_exists in E. destruct E as (o & l & w & Hin).
    destruct (step_api_calls i s _ Hin eq_refl)
      as [(_ & _ & _ & Hne & _)|[(t & H)|(u & H)]]; try discriminate.
    contradiction.
Qed.

Lemma run_stopped (inputs : list Input) :
  forall s : State,
    polling s = PNull ->
    polling (state_of (run inputs s)) = PNull
    /\ existsb is_getUpdates (trace_of (run inputs s)) = false.
Proof.
  induction inputs as [|i inputs IH]; intros s Hp; [cbn; auto|].
  rewrite run_cons_state, run_cons_trace, existsb_app.
  destruct (step_stopped i s Hp) as [Hp' ->].
  destruct (IH _ Hp') as [-> ->]. auto.
Qed.

(** X4. [close] is final for polling: once it has been called on an
    instance that had fetched, no [getUpdates] call is made any more,
    whatever happens next (reads, timers, a fetch that settles). *)
Theorem no_fetch_after_close :
  forall (inputs : list Input) (s : State),
    webhook s = WRaw Js.Undefined ->
    polling s = PPromise ->
    existsb is_getUpdates (trace_of (run (Call_close :: inputs) s)) = false
    /\ polling (state_of (run (Call_close :: inputs) s)) = PNull.
Proof.
  intros inputs s Hw Hp.
  rewrite run_cons_state, run_cons_trace, existsb_app. cbn [step].
  assert (polling (state_of (close s)) = PNull
          /\ existsb is_getUpdates (trace_of (close s)) = false) as [Hc Ht].
  { unfold close, then_end. run_m. rewrite Hw, Hp. cbn.
    break_match; split_push; cbn; auto. }
  rewrite Ht. destruct (run_stopped inputs _ Hc) as [-> ->]. auto.
Qed.

(** X5. The two transports exclude each other: an instance whose
    [webhook] is not [undefined] never calls [getUpdates]. *)
Theorem webhook_instance_never_polls :
  forall (inputs : list Input) (s : State),
    webhook s <> WRaw Js.Undefined ->
    existsb is_getUpdates (trace_of (run inputs s)) = false.
Proof.
  induction inputs as [|i inputs IH]; intros s Hw; [reflexivity|].
  rewrite run_cons_trace, existsb_app.
  assert (existsb is_getUpdates (trace_of (step i s)) = false) as ->.
  { destruct (existsb is_getUpdates (trace_of (step i s))) eqn:E; [|reflexivity].
    apply in_getUpdates_exists in E. destruct E as (o & l & w & Hin).
    destruct (step_api_calls i s _ Hin eq_refl)
      as [(_ & _ & _ & _ & H & _)|[(t & H)|(u & H)]]; try discriminate.
    contradiction. }
  apply IH. destruct (step_frame i s) as (_ & _ & [H|H]); cbn zeta in H;
    rewrite H; [exact Hw|discriminate].
Qed.

(** *** Deliveries *)

Lemma observe_fresh (id offset : Z) :
  offset <= id -> observe id offset = Js.add id 1.
Proof.
  intros H. unfold observe. destruct (id >=? offset) eqn:E; [reflexivity|].
  rewrite Z.geb_leb in E. apply Z.leb_gt in E. lia.
Qed.

Lemma observe_stale (id offset : Z) : id < offset -> observe id offset = offset.
Proof.
  intros H. unfold observe. destruct (id >=? offset) eqn:E; [|reflexivity].
  rewrite Z.geb_leb in E. apply Z.leb_le in E. lia.
Qed.

Lemma track_then_validate_offset (u : Api.Update) (s : State) :
  _updatesOffset (state_of (track_then_validate u s))
  = observe (Api.update_id u) (_updatesOffset s).
Proof.
  rewrite track_then_validate_eq, processUpdate_pipeline. cbn zeta.
  destruct (validate (chat_id s) u) as [text|[kind d]]; reflexivity.
Qed.

(** The listener's handler on a fresh update is the pipeline's step. *)
Lemma on_data_fresh (u : Api.Update) (s : State) :
  _updatesOffset s <= Api.update_id u ->
  on_data u s
  = (tt, state_of (track_then_validate u s), trace_of (track_then_validate u s)).
Proof.
  intros H. unfold on_data. run_m.
  assert ((Api.update_id u >=? _updatesOffset s) = true) as ->
    by (rewrite Z.geb_leb; apply Z.leb_le; lia).
  rewrite track_then_validate_eq.
  destruct (processUpdate u s) as [[r s1] t1]. cbn. now rewrite app_nil_r.
Qed.

Lemma on_data_stale (u : Api.Update) (s : State) :
  Api.update_id u < _updatesOffset s -> on_data u s = (tt, s, []).
Proof.
  intros H. unfold on_data. run_m.
  assert ((Api.update_id u >=? _updatesOffset s) = false) as ->
    by (rewrite Z.geb_leb; apply Z.leb_gt; lia).
  reflexivity.
Qed.

(** X6. Replaying a webhook delivery is harmless: the same update,
    numbered with a safe integer, delivered twice in a row leaves the
    events and the state of a single delivery. *)
Theorem webhook_redelivery_is_ignored :
  forall (u : Api.Update) (s : State),
    Js.safe_integer (Api.update_id u) ->
    run [Listener_data u; Listener_data u] s = run [Listener_data u] s.
Proof.
  intros u s Hsafe. cbn [run step]. unfold bind, ret.
  destruct (Z.lt_ge_cases (Api.update_id u) (_updatesOffset s)) as [Hs|Hf].
  - rewrite (on_data_stale u s Hs), (on_data_stale u s Hs). reflexivity.
  - rewrite (on_data_fresh u s Hf).
    rewrite on_data_stale; [reflexivity|].
    rewrite track_then_validate_offset, observe_fresh by exact Hf.
    rewrite add_one_safe by exact Hsafe. lia.
Qed.

Lemma data_events_app (a b : list Effect) :
  data_events (a ++ b) = data_events a ++ data_events b.
Proof.
  induction a as [|e a IH]; [reflexivity|].
  destruct e as [| |[text|]| | | | | | | | | |]; cbn; rewrite ?IH; reflexivity.
Qed.

Lemma pipeline_events (data : list Api.Update) :
  forall s : State,
    data_events (trace_of (pipeline_in_order data s)) = accepted_texts (chat_id s) data
    /\ error_events (trace_of (pipeline_in_order data s))
       = rejection_errors (chat_id s) data.
Proof.
  unfold error_events.
  induction data as [|u rest IH]; intros s; [cbn; auto|].
  rewrite pipeline_trace_cons, data_events_app, filter_app.
  destruct (IH (state_of (track_then_validate u s))) as [-> ->].
  pose proof (track_then_validate_control u s) as Hc. apply control_fields in Hc.
  destruct Hc as (-> & _).
  rewrite track_then_validate_events. cbn [accepted_texts rejection_errors flat_map].
  destruct (validate (chat_id s) u) as [text|[kind d]]; cbn; auto.
Qed.

(** X7. A fetched batch gives one ['data'] event per update the validator
    accepts, with its text, and one ['error'] per update it rejects,
    both in the order of the batch; stale updates are not left out. *)
Theorem batch_events_follow_the_batch :
  forall (data : list Api.Update) (s : State),
    data_events (trace_of (gotUpdates data s)) = accepted_texts (chat_id s) data
    /\ error_events (trace_of (gotUpdates data s)) = rejection_errors (chat_id s) data.
Proof.
  intros data s. rewrite gotUpdates_trace, data_events_app.
  unfold error_events. rewrite filter_app.
  destruct (pipeline_events data (set_inFlight false s)) as [-> Herr].
  unfold error_events in Herr. rewrite Herr. cbn [set_inFlight chat_id].
  destruct (result_of _); cbn; now rewrite !app_nil_r.
Qed.

Lemma track_then_validate_inFlight (b : bool) (u : Api.Update) (s : State) :
  track_then_validate u (set_inFlight b s)
  = (result_of (track_then_validate u s),
     set_inFlight b (state_of (track_then_validate u s)),
     trace_of (track_then_validate u s)).
Proof.
  rewrite !track_then_validate_eq, !processUpdate_pipeline. cbn zeta.
  cbn [set_inFlight chat_id _updatesOffset _readableState].
  destruct (validate (chat_id s) u) as [text|[kind d]]; reflexivity.
Qed.

Lemma pipeline_inFlight (b : bool) (data : list Api.Update) :
  forall s : State,
    pipeline_in_order data (set_inFlight b s)
    = (result_of (pipeline_in_order data s),
       set_inFlight b (state_of (pipeline_in_order data s)),
       trace_of (pipeline_in_order data s)).
Proof.
  induction data as [|u rest IH]; intros s; [reflexivity|].
  cbn [pipeline_in_order]. unfold bind.
  rewrite track_then_validate_inFlight.
  destruct (track_then_validate u s) as [[ok s1] t1].
  cbn [result_of state_of trace_of fst snd].
  rewrite IH. destruct (pipeline_in_order rest s1) as [[flag s2] t2].
  reflexivity.
Qed.

Lemma listener_runs_pipeline (updates : list Api.Update) :
  forall s : State,
    fresh_increasing (_updatesOffset s) updates ->
    state_of (run (map Listener_data updates) s)
    = state_of (pipeline_in_order updates s)
    /\ trace_of (run (map Listener_data updates) s)
       = trace_of (pipeline_in_order updates s).
Proof.
  induction updates as [|u rest IH]; intros s H; [cbn; auto|].
  destruct H as [Hu Hrest]. cbn [map].
  rewrite run_cons_state, run_cons_trace, pipeline_state, pipeline_trace_cons.
  cbn [step]. rewrite (on_data_fresh u s Hu). cbn [state_of trace_of fst snd].
  destruct (IH (state_of (track_then_validate u s))) as [-> ->]; [|auto].
  now rewrite track_then_validate_offset, observe_fresh.
Qed.

Lemma filter_none (p : Effect -> bool) (t : list Effect) :
  existsb p t = false -> filter (fun e => negb (p e)) t = t.
Proof.
  induction t as [|e t IH]; [reflexivity|]. cbn.
  intros H. apply orb_false_iff in H. destruct H as [-> Ht]. cbn.
  now rewrite IH.
Qed.

(** X8. The two transports agree: updates with strictly growing
    identifiers, none below the offset, produce the same events, the
    same offset and the same read buffer whether the listener
    delivers them one by one or one fetch returns them as a batch;
    the batch only adds its timer. *)
Theorem transports_agree_on_growing_updates :
  forall (updates : list Api.Update) (s : State),
    fresh_increasing (_updatesOffset s) updates ->
    filter (fun e => negb (is_timer e)) (trace_of (gotUpdates updates s))
    = trace_of (run (map Listener_data updates) s)
    /\ _updatesOffset (state_of (gotUpdates updates s))
       = _updatesOffset (state_of (run (map Listener_data updates) s))
    /\ _readableState (state_of (gotUpdates updates s))
       = _readableState (state_of (run (map Listener_data updates) s)).
Proof.
  intros updates s H.
  destruct (listener_runs_pipeline updates s H) as [-> ->].
  rewrite gotUpdates_trace, gotUpdates_state, pipeline_inFlight.
  cbn [result_of state_of trace_of fst snd set_inFlight _updatesOffset _readableState].
  split; [|auto].
  rewrite filter_app, filter_none by apply pipeline_trace.
  match goal with |- context [if ?b then _ else _] => destruct b end;
    cbn; now rewrite app_nil_r.
Qed.

Lemma observe_fold_gt (ids : list Z) (x : Z) :
  Forall Js.safe_integer ids ->
  In x ids ->
  forall o : Z, x < fold_left (fun o id => observe id o) ids o.
Proof.
  induction 1 as [|y ids Hy Hall IH]; intros Hin o; [contradiction|].
  cbn [fold_left]. destruct Hin as [->|Hin]; [|auto].
  pose proof (observe_fold_ge ids Hall (observe x o)) as Hge.
  assert (x < observe x o); [|lia].
  rewrite observe_safe by exact Hy. destruct (x >=? o) eqn:E; [lia|].
  rewrite Z.geb_leb in E. apply Z.leb_gt in E. lia.
Qed.

(** X9. A fetch never asks again for what was delivered: after any
    history whose update identifiers are safe integers, the offset
    [_read] sends with [getUpdates] is above the identifier of every
    update delivered so far, pushed or rejected. *)
Theorem next_fetch_is_past_every_update :
  forall (inputs : list Input) (s : State) (u : Api.Update) (offset limit timeout : Z),
    Forall Js.safe_integer (observed_ids inputs) ->
    In u (flat_map observed inputs) ->
    In (Api_getUpdates offset limit timeout)
       (trace_of (_read (state_of (run inputs s)))) ->
    Api.update_id u < offset.
Proof.
  intros inputs s u offset limit timeout Hsafe Hu Hin.
  destruct (step_api_calls Call_read _ _ Hin eq_refl)
    as [(He & _)|[(t & H)|(url & H)]]; try discriminate.
  injection He as -> _ _. rewrite run_offset.
  apply observe_fold_gt; [exact Hsafe|]. unfold observed_ids. now apply in_map.
Qed.

(** X10. A failed fetch is reported once and not retried: no timer, no
    call; the flag is cleared and the offset kept, so that the next
    pull repeats the request that failed. *)
Theorem failed_fetch_is_not_retried :
  forall (error : Api.Error) (s : State),
    inFlight s = false ->
    free_capacity s <> 0 ->
    Stream.ended (_readableState s) = false ->
    polling s <> PNull ->
    webhook s = WRaw Js.Undefined ->
    trace_of (run [Call_read; Fetch_settled (inl error)] s)
    = [Api_getUpdates (_updatesOffset s) (free_capacity s) 0; Emit_error_from error]
    /\ trace_of (run [Call_read; Fetch_settled (inl error); Call_read] s)
       = [Api_getUpdates (_updatesOffset s) (free_capacity s) 0;
          Emit_error_from error;
          Api_getUpdates (_updatesOffset s) (free_capacity s) 0].
Proof.
  intros error s Hf Hc He Hp Hw.
  cbn [run step]. unfold on_fetch_settled, onError, _read, free_capacity in *.
  run_m. rewrite Hf, He, Hw. apply Z.eqb_neq in Hc. rewrite Hc.
  destruct (polling s); try contradiction; cbn; rewrite He, Hw, Hc; cbn; auto.
Qed.

(** *** The listener's life *)

(** X11. Closing a listening instance: [close] only asks the platform to
    forget the webhook; the listener is closed when that call has
    settled, whatever its outcome; the end of data follows the
    listener's own end; and a later [close] does nothing. *)
Theorem webhook_close_sequence :
  forall s : State,
    webhook s = WListener ->
    unregistering s = [] ->
    trace_of (run [Call_close] s) = [Api_setWebhook None (certificate s)]
    /\ trace_of (run [Call_close; Unregister_settled 0] s)
       = [Api_setWebhook None (certificate s); WebhookPost_close]
    /\ trace_of (run [Call_close; Unregister_settled 0; Listener_end; Call_close] s)
       = [Api_setWebhook None (certificate s); WebhookPost_close; Push None]
    /\ webhook (state_of (run [Call_close; Unregister_settled 0] s)) = WRaw Js.Null.
Proof.
  intros s Hw Hu. cbn [run step].
  unfold close, on_unregister_settled, on_end. run_m.
  rewrite Hw. cbn. rewrite Hu. cbn.
  unfold closeWebhook. run_m. cbn. rewrite ?Hw. cbn.
  split_push. cbn. auto.
Qed.

(** X12. A listener that ends by itself: the webhook is unregistered first
    and the end of data is signalled when that call has settled; a
    [close] in between does nothing.  When [webhook] is already [null]
    the end of data is signalled at once. *)
Theorem listener_end_unregisters_first :
  forall s : State,
    (webhook s = WListener ->
     unregistering s = [] ->
     trace_of (run [Listener_end] s) = [Api_setWebhook None (certificate s)]
     /\ trace_of (run [Listener_end; Call_close; Unregister_settled 0] s)
        = [Api_setWebhook None (certificate s); Push None])
    /\ (webhook s = WRaw Js.Null ->
        trace_of (run [Listener_end] s) = [Push None]).
Proof.
  intros s. split.
  - intros Hw Hu. cbn [run step].
    unfold close, on_unregister_settled, on_end. run_m.
    rewrite Hw. cbn. rewrite Hu. cbn. run_m. cbn.
    split_push. cbn. auto.
  - intros Hw. cbn [run step]. unfold on_end. run_m. rewrite Hw. cbn.
    split_push. reflexivity.
Qed.

(** X13. A registration that fails ends the stream: the error is emitted,
    the end of data is signalled, and [webhook] is [null], so that a
    later [close] neither unregisters nor closes the listener. *)
Theorem failed_registration_ends_the_stream :
  forall (url : string) (error : Api.Error) (s : State),
    trace_of (run [Listener_open url; Register_failed error; Call_close] s)
    = [Api_setWebhook (Some url) (certificate s); Emit_error_from error; Push None]
    /\ webhook (state_of (run [Listener_open url; Register_failed error] s))
       = WRaw Js.Null.
Proof.
  intros url error s. cbn [run step].
  unfold on_open, on_register_failed, close. run_m. split_push. cbn. auto.
Qed.

(** *** Polling without a listener *)

Lemma run_callbacks_without_listener (cbs : list Callback) :
  forall (s : State) (v : Js.value),
    webhook s = WRaw v ->
    webhook (state_of (run_callbacks cbs s)) = WRaw v
    /\ existsb is_webhook_effect (trace_of (run_callbacks cbs s)) = false.
Proof.
  induction cbs as [|cb cbs IH]; intros s v Hw; [cbn; auto|].
  cbn [run_callbacks]. rewrite bind_state, bind_trace, existsb_app.
  assert (webhook (state_of (run_callback cb s)) = WRaw v
          /\ existsb is_webhook_effect (trace_of (run_callback cb s)) = false)
    as [Hw' ->].
  { destruct cb; cbn [run_callback].
    - unfold end_. run_m. split_push. cbn. auto.
    - unfold closeWebhook. run_m. rewrite Hw. cbn. auto. }
  destruct (IH _ _ Hw') as [-> ->]. auto.
Qed.

Lemma step_without_listener (i : Input) (s : State) :
  polling_input i = true ->
  webhook s = WRaw Js.Undefined ->
  webhook (state_of (step i s)) = WRaw Js.Undefined
  /\ existsb is_webhook_effect (trace_of (step i s)) = false.
Proof.
  intros Hi Hw. destruct i; try discriminate; cbn [step].
  - unfold _read. run_m. break_match; cbn; auto.
  - unfold _write. run_m. break_match; cbn; auto.
  - unfold close, then_end. run_m. rewrite Hw. cbn.
    break_match; split_push; cbn; auto.
  - unfold _read. run_m. break_match; cbn; auto.
  - unfold on_fetch_settled. rewrite bind_state, bind_trace, existsb_app.
    destruct (fetch_handler_frame outcome s) as [Hc _].
    apply control_fields in Hc. destruct Hc as (_ & _ & Hw1 & _).
    cbn [set_inFlight webhook] in Hw1. rewrite Hw in Hw1.
    assert (existsb is_webhook_effect
              (trace_of (match outcome with
                         | inl error => onError error
                         | inr data => gotUpdates data
                         end s)) = false) as ->.
    { destruct outcome as [error|data]; [reflexivity|].
      rewrite gotUpdates_trace, existsb_app, pipeline_no_webhook_effect.
      destruct (result_of _); reflexivity. }
    set (s1 := state_of _) in *.
    rewrite bind_state, bind_trace.
    cbn [get result_of state_of trace_of fst snd app orb].
    destruct (fetch s1) as [[reactions|]|]; cbn [ret fst snd existsb]; auto.
    rewrite bind_state, bind_trace.
    cbn [modify result_of state_of trace_of fst snd app].
    apply run_callbacks_without_listener. exact Hw1.
  - cbn. auto.
Qed.

(** X14. An instance made without webhook, used through its API and its
    fetches, never registers or unregisters a webhook and never
    touches a listener. *)
Theorem polling_instance_never_touches_the_webhook :
  forall (inputs : list Input) (s : State),
    forallb polling_input inputs = true ->
    webhook s = WRaw Js.Undefined ->
    existsb is_webhook_effect (trace_of (run inputs s)) = false
    /\ webhook (state_of (run inputs s)) = WRaw Js.Undefined.
Proof.
  induction inputs as [|i inputs IH]; intros s Hall Hw; [cbn; auto|].
  cbn [forallb] in Hall. apply andb_true_iff in Hall. destruct Hall as [Hi Hall].
  rewrite run_cons_state, run_cons_trace, existsb_app.
  destruct (step_without_listener i s Hi Hw) as [Hw' ->].
  destruct (IH _ Hall Hw') as [-> ->]. auto.
Qed.

(** *** [close] while a fetch is pending *)

Lemma track_then_validate_beside (g : State -> State) (u : Api.Update) (s : State) :
  beside_the_pipeline g ->
  track_then_validate u (g s)
  = (result_of (track_then_validate u s),
     g (state_of (track_then_validate u s)),
     trace_of (track_then_validate u s)).
Proof.
  intros (Hc & Ho & Hr & Hso & Hsr & _).
  rewrite !track_then_validate_eq, !processUpdate_pipeline. cbn zeta.
  rewrite Hc, Ho, Hr.
  destruct (validate (chat_id s) u) as [text|[kind d]]; cbn;
    now rewrite ?Hsr, ?Hso.
Qed.

Lemma pipeline_beside (g : State -> State) (data : list Api.Update) :
  beside_the_pipeline g ->
  forall s : State,
    pipeline_in_order data (g s)
    = (result_of (pipeline_in_order data s),
       g (state_of (pipeline_in_order data s)),
       trace_of (pipeline_in_order data s)).
Proof.
  intros Hg. induction data as [|u rest IH]; intros s; [reflexivity|].
  cbn [pipeline_in_order]. unfold bind.
  rewrite (track_then_validate_beside g u s Hg).
  destruct (track_then_validate u s) as [[ok s1] t1].
  cbn [result_of state_of trace_of fst snd].
  rewrite IH. destruct (pipeline_in_order rest s1) as [[flag s2] t2].
  reflexivity.
Qed.

Lemma fetch_handler_beside (g : State -> State)
    (outcome : Api.Error + list Api.Update) (s : State) :
  beside_the_pipeline g ->
  trace_of (match outcome with
            | inr data => gotUpdates data
            | inl error => onError error
            end (g s))
  = trace_of (match outcome with
              | inr data => gotUpdates data
              | inl error => onError error
              end s).
Proof.
  intros Hg. destruct outcome as [error|data]; [reflexivity|].
  rewrite !gotUpdates_trace.
  destruct Hg as (H1 & H2 & H3 & H4 & H5 & H6). rewrite <- H6.
  rewrite (pipeline_beside g data (conj H1 (conj H2 (conj H3 (conj H4 (conj H5 H6)))))).
  reflexivity.
Qed.

Lemma close_reaction_beside :
  beside_the_pipeline
    (fun s => set_polling PNull (set_fetch (Some (Pending [Cb_end])) s)).
Proof. unfold beside_the_pipeline. repeat split. Qed.

(** X15. [close] while a fetch is pending signals nothing at once and does
    not cancel the fetch: when the fetch settles, with updates or with
    an error, its events come as they would have, and the end of data
    comes after them. *)
Theorem close_waits_for_the_pending_fetch :
  forall (outcome : Api.Error + list Api.Update) (s : State),
    inFlight s = false ->
    free_capacity s <> 0 ->
    Stream.ended (_readableState s) = false ->
    polling s <> PNull ->
    webhook s = WRaw Js.Undefined ->
    trace_of (run [Call_read; Call_close] s) = trace_of (run [Call_read] s)
    /\ trace_of (run [Call_read; Call_close; Fetch_settled outcome] s)
       = trace_of (run [Call_read; Fetch_settled outcome] s) ++ [Push None].
Proof.
  intros outcome s Hf Hc He Hp Hw.
  set (s1 := set_polling PPromise (set_fetch (Some (Pending [])) (set_inFlight true s))).
  assert (_read s = (tt, s1, [Api_getUpdates (_updatesOffset s) (free_capacity s) 0]))
    as Hread.
  { unfold _read, free_capacity in *. run_m. rewrite Hf, He, Hw.
    apply Z.eqb_neq in Hc. rewrite Hc.
    destruct (polling s); try contradiction; reflexivity. }
  assert (close s1
          = (tt, set_polling PNull (set_fetch (Some (Pending [Cb_end])) s1), []))
    as Hclose.
  { apply (close_while_fetching s1 []); [exact Hw|reflexivity|reflexivity]. }
  set (s2 := set_polling PNull (set_fetch (Some (Pending [Cb_end])) s1)) in *.
  assert (trace_of (on_fetch_settled outcome s1)
          = trace_of (match outcome with
                      | inr data => gotUpdates data s1
                      | inl error => onError error s1
                      end)) as H1.
  { unfold on_fetch_settled. rewrite bind_trace.
    destruct (fetch_handler_frame outcome s1) as [Hctl _].
    apply control_fields in Hctl. destruct Hctl as (_ & _ & _ & _ & _ & Hfetch & _).
    rewrite bind_trace. cbn [get result_of state_of trace_of fst snd app] in *.
    rewrite Hfetch. cbn. rewrite app_nil_r. destruct outcome; reflexivity. }
  assert (trace_of (on_fetch_settled outcome s2)
          = trace_of (match outcome with
                      | inr data => gotUpdates data s1
                      | inl error => onError error s1
                      end) ++ [Push None]) as H2.
  { rewrite fetch_settled_then_end by reflexivity. f_equal.
    pose proof (fetch_handler_beside _ outcome s1 close_reaction_beside) as Hb.
    destruct outcome; exact Hb. }
  rewrite !run_cons_trace. cbn [step run ret trace_of snd].
  rewrite Hread. cbn [state_of trace_of fst snd].
  rewrite Hclose. cbn [state_of trace_of fst snd app].
  split; [reflexivity|].
  rewrite H1, H2, !app_nil_r. reflexivity.
Qed.

(** X16. An empty batch keeps the polling going: no event, the timer is
    set, and when it fires the same request is made again. *)
Theorem empty_batch_keeps_polling :
  forall s : State,
    inFlight s = false ->
    free_capacity s <> 0 ->
    Stream.ended (_readableState s) = false ->
    polling s <> PNull ->
    webhook s = WRaw Js.Undefined ->
    trace_of (run [Call_read; Fetch_settled (inr []); Timer_fired] s)
    = [Api_getUpdates (_updatesOffset s) (free_capacity s) 0;
       SetTimeout_read 1000;
       Api_getUpdates (_updatesOffset s) (free_capacity s) 0].
Proof.
  intros s Hf Hc He Hp Hw.
  cbn [run step]. unfold on_fetch_settled, gotUpdates, _read, free_capacity in *.
  cbn [reduce]. run_m. rewrite Hf, He, Hw. apply Z.eqb_neq in Hc. rewrite Hc.
  destruct (polling s); try contradiction; cbn; rewrite He, Hw, Hc; cbn; auto.
Qed.

(** *** Construction *)

Lemma supported_port_accepted (n : Z) :
  port_rejected (Config.PortValue (Js.Num n)) = false <-> supported_port n.
Proof.
  unfold supported_port. cbn.
  destruct (Z.eqb_spec n 80), (Z.eqb_spec n 88), (Z.eqb_spec n 443),
    (Z.eqb_spec n 8443); cbn; split; intros H; try discriminate; try lia; auto.
Qed.

Lemma webhook_let_through (w : Config.Webhook) :
  (webhook_option_truthy w = false
   \/ webhook_option_not_string w && port_rejected (port_of w) = false)
  <-> accepted_webhook w.
Proof.
  unfold accepted_webhook. split.
  - intros [H|H].
    + destruct w as [v|h p c]; [|discriminate]. left. eauto.
    + destruct w as [[| |b|n|str]|h p c]; cbn in H; try discriminate.
      * right. right. left. exists n. split; [reflexivity|].
        apply supported_port_accepted. exact H.
      * right. left. eauto.
      * destruct (Js.truthy p) eqn:Ht; [|discriminate].
        destruct p as [| |b|n|str]; try discriminate.
        do 3 right. exists h, n, c. split; [reflexivity|].
        apply supported_port_accepted. exact H.
  - intros [(v & -> & Hv)|[(host & ->)|[(n & -> & Hn)|(h & n & c & -> & Hn)]]].
    + left. exact Hv.
    + right. reflexivity.
    + right. cbn [webhook_option_not_string port_of andb].
      now apply supported_port_accepted.
    + right. cbn [webhook_option_not_string port_of andb].
      destruct (Z.eq_dec n 0) as [->|Hz].
      * destruct Hn as [H|[H|[H|H]]]; discriminate.
      * assert (Js.truthy (Js.Num n) = true) as ->
          by (cbn; apply Z.eqb_neq in Hz; now rewrite Hz).
        now apply supported_port_accepted.
Qed.

Lemma TelegramLog_falsy_token (token chat : Js.value)
    (options : option Config.Options) :
  Js.truthy token = false ->
  exists e, TelegramLog (Config.TokenValue token) chat options = ([], inl e).
Proof.
  intros H. unfold TelegramLog.
  destruct token; try (eexists; reflexivity);
    cbv beta iota zeta; rewrite H; destruct (negb (Stream.accepts _));
    eexists; reflexivity.
Qed.

Lemma TelegramLog_truthy_token (token chat : Js.value)
    (options : option Config.Options) :
  Js.truthy token = true ->
  TelegramLog (Config.TokenValue token) chat options
  = TelegramLog (Config.TokenObject token chat options) Js.Undefined None.
Proof.
  intros H. unfold TelegramLog. destruct token; try discriminate; reflexivity.
Qed.

Lemma Stream_accepts_iff (hwm : option Z) :
  Stream.accepts hwm = true <-> (forall n, hwm = Some n -> 0 <= n).
Proof.
  destruct hwm as [n|]; cbn.
  - rewrite Z.leb_le. split; [intros H m [= <-]; exact H | auto].
  - split; [discriminate | reflexivity].
Qed.

(** X17. The constructor returns an instance exactly when the options
    hold no negative [highWaterMark], the token and the chat are
    truthy, and the webhook option is absent (falsy), a host name, one
    of the ports 80, 88, 443 and 8443, or an object whose port is one
    of them; in every other case it throws. *)
Theorem construction_succeeds_exactly_when :
  forall (token chat : Js.value) (options : option Config.Options),
    (exists t s, TelegramLog (Config.TokenValue token) chat options = (t, inr s))
    <-> ((forall n,
            Config.highWaterMark match options with
                                 | Some o => o
                                 | None => Config.empty
                                 end = Some n ->
            0 <= n)
         /\ Js.truthy token = true
         /\ Js.truthy chat = true
         /\ accepted_webhook
              (Config.webhook match options with
                              | Some o => o
                              | None => Config.empty
                              end)).
Proof.
  intros token chat options.
  set (o := match options with Some o => o | None => Config.empty end).
  destruct (Js.truthy token) eqn:Ht.
  2:{ destruct (TelegramLog_falsy_token token chat options Ht) as (e & He).
      split; [intros (t & s & H); congruence | intros (_ & H & _); discriminate]. }
  rewrite (TelegramLog_truthy_token token chat options Ht).
  unfold TelegramLog. cbv beta iota zeta. rewrite Ht. fold o. cbn [negb].
  rewrite <- Stream_accepts_iff.
  destruct (Stream.accepts (Config.highWaterMark o)); cbn [negb].
  2:{ split; [intros (t & s & H); discriminate | intros (H & _); discriminate]. }
  destruct (Js.truthy chat) eqn:Hc; cbn [negb].
  2:{ split; [intros (t & s & H); discriminate
             | intros (_ & _ & H & _); discriminate]. }
  rewrite <- webhook_let_through.
  destruct (webhook_option_truthy (Config.webhook o)).
  2:{ split; [auto 6 | intros _; eexists; eexists; reflexivity]. }
  destruct (webhook_option_not_string (Config.webhook o)
            && port_rejected (port_of (Config.webhook o))).
  - split; [intros (t & s & H); discriminate|].
    intros (_ & _ & _ & [H|H]); discriminate.
  - split; [auto 6 | intros _; eexists; eexists; reflexivity].
Qed.

(** X18. A new instance is idle: the constructor calls nothing of the
    API (the webhook is registered when the listener opens, the first
    fetch is made by the first read), the offset is 0, no fetch is in
    flight, the read buffer is empty and open; a listener was made
    exactly when [webhook] holds it. *)
Theorem new_instance_is_idle :
  forall (token : Config.TokenArg) (chat : Js.value)
         (options : option Config.Options) (t : list Effect) (s : State),
    TelegramLog token chat options = (t, inr s) ->
    existsb is_api_call t = false
    /\ _updatesOffset s = 0 /\ inFlight s = false /\ polling s = PUndefined
    /\ fetch s = None /\ unregistering s = []
    /\ Stream.length (_readableState s) = 0
    /\ Stream.ended (_readableState s) = false
    /\ Js.truthy (chat_id s) = true
    /\ (webhook s = WListener <-> existsb is_webhook_effect t = true).
Proof.
  intros token chat options t s H. unfold TelegramLog in H.
  destruct token as [[| |b|n|str]|tk c o]; try discriminate;
    cbv beta iota zeta in H;
    repeat match type of H with
           | context [if negb ?b then _ else _] => destruct b eqn:?; cbn [negb] in H
           | context [if ?b then _ else _] => destruct b eqn:?
           end;
    try discriminate; injection H as <- <-; cbn;
    repeat split; auto; try discriminate;
    try (intros Hl;
         match goal with
         | E : webhook_option_truthy ?w = false |- _ =>
             destruct w; cbn in *; congruence
         end).
Qed.

(** *** The end of data, without listener *)

Lemma pipeline_no_end (data : list Api.Update) :
  forall s : State, count_ends (trace_of (pipeline_in_order data s)) = 0%nat.
Proof.
  unfold count_ends.
  induction data as [|u rest IH]; intros s; [reflexivity|].
  rewrite pipeline_trace_cons, filter_app, length_app, IH.
  rewrite track_then_validate_events.
  destruct (validate (chat_id s) u) as [text|[kind d]]; reflexivity.
Qed.

Lemma fetch_handler_no_end (outcome : Api.Error + list Api.Update) (s : State) :
  count_ends (trace_of (match outcome with
                        | inr data => gotUpdates data
                        | inl error => onError error
                        end s)) = 0%nat.
Proof.
  destruct outcome as [error|data]; [reflexivity|].
  rewrite gotUpdates_trace. unfold count_ends. rewrite filter_app, length_app.
  pose proof (pipeline_no_end data (set_inFlight false s)) as H.
  unfold count_ends in H. rewrite H.
  destruct (result_of _); reflexivity.
Qed.

Lemma _read_cases (s : State) :
  _read s = (tt, s, [])
  \/ (polling s <> PNull
      /\ _read s
         = (tt,
            set_polling PPromise (set_fetch (Some (Pending [])) (set_inFlight true s)),
            [Api_getUpdates (_updatesOffset s) (free_capacity s) 0])).
Proof.
  unfold _read, free_capacity. run_m.
  destruct (inFlight s); cbn; [auto|].
  destruct (Stream.ended (_readableState s)); cbn; [auto|].
  destruct (_ =? 0); cbn; [auto|].
  destruct (polling s); cbn; try (left; reflexivity);
    (destruct (negb (webhook_is Js.Undefined (webhook s)));
       [left; reflexivity | right; split; [discriminate|reflexivity]]).
Qed.

Lemma close_without_listener (s : State) :
  webhook s = WRaw Js.Undefined ->
  close s
  = match polling s with
    | PPromise =>
        match fetch s with
        | Some (Pending reactions) =>
            (tt, set_polling PNull
                   (set_fetch (Some (Pending (reactions ++ [Cb_end]))) s), [])
        | Some Settled =>
            (tt, set_polling PNull
                   (set_readableState
                      (fst (stream_push (_readableState s) None)) s),
             [Push None])
        | None => (tt, set_polling PNull s, [])
        end
    | _ => (tt, s, [])
    end.
Proof.
  intros Hw. unfold close, then_end. run_m. rewrite Hw. cbn.
  destruct (polling s); try reflexivity.
  destruct (fetch s) as [[reactions|]|]; try reflexivity.
  run_m. split_push. reflexivity.
Qed.

Lemma step_ends (i : Input) (s : State) :
  polling_input i = true ->
  polling_consistent s ->
  polling_consistent (state_of (step i s))
  /\ (count_ends (trace_of (step i s)) + ends_to_come (state_of (step i s))
      <= ends_to_come s)%nat.
Proof.
  unfold polling_consistent, ends_to_come, count_ends.
  intros Hi [Hw Hc].
  assert (Hread : (webhook (state_of (_read s)) = WRaw Js.Undefined
                   /\ match polling (state_of (_read s)), fetch (state_of (_read s)) with
                      | PNull, Some (Pending reactions) => reactions = [Cb_end]
                      | _, Some (Pending reactions) => reactions = []
                      | _, _ => True
                      end)
                  /\ (List.length (filter is_end (trace_of (_read s)))
                      + match polling (state_of (_read s)), fetch (state_of (_read s)) with
                        | PNull, Some (Pending _) => 1
                        | PNull, _ => 0
                        | _, _ => 1
                        end
                      <= match polling s, fetch s with
                         | PNull, Some (Pending _) => 1
                         | PNull, _ => 0
                         | _, _ => 1
                         end)%nat).
  { destruct (_read_cases s) as [->|[Hp ->]]; cbn; [auto|].
    split; [auto|]. destruct (polling s); try contradiction; cbn; lia. }
  destruct i; try discriminate; cbn [step]; try exact Hread.
  - assert (exists t, _write chunk s = (tt, s, t) /\ filter is_end t = [])
      as (t & -> & Ht).
    { unfold _write. run_m.
      destruct (chunk_loose_eq_null chunk); [eexists; split; reflexivity|].
      destruct (chunk_loose_eq_empty chunk) as [[|]|];
        try (eexists; split; reflexivity).
      destruct (JSON_stringify chunk); eexists; split; reflexivity. }
    cbn. rewrite Ht. cbn. auto.
  - rewrite (close_without_listener s Hw).
    destruct (polling s) eqn:Hp; cbn; rewrite ?Hp; auto.
    destruct (fetch s) as [[rs|]|] eqn:Hf; cbn; rewrite ?Hw, ?Hf; subst; cbn; auto.
  - clear Hread. unfold on_fetch_settled.
    rewrite bind_state, bind_trace, filter_app, length_app.
    pose proof (fetch_handler_no_end outcome s) as Hn. unfold count_ends in Hn.
    rewrite Hn. cbn [Nat.add].
    destruct (fetch_handler_frame outcome s) as [Hctl _].
    apply control_fields in Hctl.
    destruct Hctl as (_ & _ & W & P & _ & F & _).
    cbn [set_inFlight webhook polling fetch] in W, P, F.
    set (s1 := state_of _) in *.
    rewrite bind_state, bind_trace.
    cbn [get result_of state_of trace_of fst snd app].
    rewrite <- P, <- F in Hc. rewrite <- P, <- F. rewrite <- W in Hw.
    clearbody s1. clear W P F Hn.
    destruct (fetch s1) as [[rs|]|] eqn:Hf;
      [|cbn; rewrite Hf; auto|cbn; rewrite Hf; auto].
    rewrite bind_state, bind_trace.
    cbn [modify result_of state_of trace_of fst snd app].
    destruct (polling s1) eqn:Hp; subst rs;
      cbn [run_callbacks run_callback ret state_of trace_of fst snd];
      try (cbn; rewrite Hw, Hp; auto; fail).
    rewrite bind_state, bind_trace.
    pose proof (end_control (set_fetch (Some Settled) s1)) as He.
    apply control_fields in He. destruct He as (_ & _ & W & P & _ & F & _).
    cbn [set_fetch webhook polling fetch] in W, P, F.
    cbn [ret result_of state_of trace_of fst snd].
    rewrite end_trace.
    change (snd (fst (end_ (set_fetch (Some Settled) s1))))
      with (state_of (end_ (set_fetch (Some Settled) s1))).
    rewrite W, P, F, Hw, Hp. cbn. auto.
  - cbn. rewrite Hw. auto.
Qed.

(** X19. An instance without listener signals the end of data at most
    once, whatever is done with it: reads, writes, any number of
    [close] calls, fetches that settle. *)
Theorem polling_ends_at_most_once :
  forall (inputs : list Input) (s : State),
    forallb polling_input inputs = true ->
    polling_consistent s ->
    (count_ends (trace_of (run inputs s)) <= 1)%nat.
Proof.
  intros inputs s Hall Hc.
  enough (count_ends (trace_of (run inputs s)) <= ends_to_come s)%nat as H.
  { unfold ends_to_come in H.
    destruct (polling s), (fetch s) as [[rs|]|]; lia. }
  revert s Hc. induction inputs as [|i inputs IH]; intros s Hc; [cbn; lia|].
  cbn [forallb] in Hall. apply andb_true_iff in Hall. destruct Hall as [Hi Hall].
  destruct (step_ends i s Hi Hc) as [Hc' Hle].
  specialize (IH Hall _ Hc').
  rewrite run_cons_trace. unfold count_ends in *. rewrite filter_app, length_app.
  lia.
Qed.

(** X20. Without listener, a second [close] in a row changes nothing and
    causes nothing. *)
Theorem second_close_does_nothing_when_polling :
  forall s : State,
    webhook s = WRaw Js.Undefined ->
    run [Call_close; Call_close] s = run [Call_close] s.
Proof.
  intros s Hw. cbn [run step]. unfold bind, ret.
  pose proof (close_twice_polling s Hw) as H. unfold state_of in H.
  destruct (close s) as [[x s1] t1]. cbn [fst snd] in H. rewrite H.
  reflexivity.
Qed.

End Properties.

(** ** The theorems on concrete instances *)


Lemma validator_outcomes_witness :
  processUpdate (collaborators := reference) (update_without_message 3) polling_42
  = (Js.Undefined, set_updatesOffset 4 polling_42,
     [Emit_error "Inline queries are not supported"
        (OfUpdate (update_without_message 3))])
  /\ trace_of (processUpdate (collaborators := reference)
                 (text_update 1 42 "hi") polling_42)
     = [Push (Some "hi")].
Proof.
  split.
  - apply (proj1 (validator_outcomes (collaborators := reference)
                    (update_without_message 3) polling_42 ltac:(cbn; lia))).
    reflexivity.
  - pose proof (proj1 (proj2 (proj2 (proj2
           (validator_outcomes (collaborators := reference)
              (text_update 1 42 "hi") polling_42 ltac:(cbn; lia)))))
           _ "hi" eq_refl eq_refl eq_refl) as H.
    rewrite H. reflexivity.
Defined.

Lemma read_requests_more_witness :
  _read listening_443 = (tt, listening_443, [])
  /\ trace_of (_read polling_42)
     = [Api_getUpdates 0 16 0].
Proof.
  split.
  - apply (proj1 (read_requests_more listening_443)).
    do 4 right. discriminate.
  - apply (proj2 (read_requests_more polling_42));
      try reflexivity; cbn; try discriminate; lia.
Defined.

Lemma rejected_update_stops_polling_witness :
  existsb is_timer
    (trace_of (on_fetch_settled (collaborators := reference)
                 (inr mixed_batch) polling_42))
  = false.
Proof.
  apply (rejected_update_stops_polling (collaborators := reference)
           mixed_batch polling_42).
  apply Exists_cons_tl. apply Exists_cons_hd. left. reflexivity.
Defined.

Lemma stale_update_outcomes_witness :
  on_data (collaborators := reference) (text_update 1 42 "dup")
    (set_updatesOffset 2 polling_42)
  = (tt, set_updatesOffset 2 polling_42, [])
  /\ trace_of (processUpdate (collaborators := reference) (text_update 1 42 "dup")
                 (set_updatesOffset 2 polling_42))
     = [Push (Some "dup")].
Proof.
  pose proof (proj2 (stale_update_outcomes (collaborators := reference))
                (text_update 1 42 "dup") (set_updatesOffset 2 polling_42)
                ltac:(cbn; lia)) as (H1 & _ & H3).
  split; [exact H1 | exact H3].
Defined.

Lemma write_outcomes_witness :
  _write (collaborators := reference)
    (CObj (Some (Value (Js.Num 0))) (Text "0")) polling_42
  = (tt, polling_42, [Done None])
  /\ trace_of (_write (collaborators := reference) (CPrim (Js.Str "log line")) polling_42)
     = [Api_sendMessage (Js.Num 42) (Some (quote ++ "log line" ++ quote)%string)].
Proof.
  split.
  - apply (proj1 (write_outcomes (collaborators := reference)
                    (CObj (Some (Value (Js.Num 0))) (Text "0")) polling_42)).
    right. right. exists (Value (Js.Num 0)). split.
    + right. left. reflexivity.
    + right. exists (Text "0"). reflexivity.
  - rewrite (proj1 (proj2 (write_outcomes (collaborators := reference)
                             (CPrim (Js.Str "log line")) polling_42))).
    + reflexivity.
    + intros [H|[H|(p & [Hp|[Hp|[Hp|Hp]]] & [H|(json & H)])]];
        subst; discriminate.
Defined.

(** ** Where the specification and the code part *)

(** C1 (as stated). In a fetched batch an update below the offset is
    pushed all the same: the second update numbered 1 of the batch
    arrives when the offset is 2, and its text is pushed, so the batch
    gives two ['data'] events, not one. *)
Lemma stale_update_in_batch_is_pushed :
  Api.update_id (text_update 1 42 "dup")
  < _updatesOffset
      (state_of (processUpdate (collaborators := reference)
                   (text_update 1 42 "hi") polling_42))
  /\ data_events
       (trace_of (gotUpdates (collaborators := reference)
                    [text_update 1 42 "hi"; text_update 1 42 "dup"] polling_42))
     = ["hi"; "dup"]
  /\ ~ (forall (s : State) (u : Api.Update),
          Api.update_id u < _updatesOffset s ->
          data_events (trace_of (gotUpdates (collaborators := reference) [u] s)) = []).
Proof.
  split; [cbn; lia|]. split; [reflexivity|].
  intros H.
  specialize (H (set_updatesOffset 2 polling_42) (text_update 1 42 "dup")
                ltac:(cbn; lia)).
  discriminate H.
Qed.


(** C9 (as stated). The number 0 is neither absent nor the empty
    string, yet writing it is acknowledged without any [sendMessage]
    call. *)
Lemma write_zero_is_not_sent :
  _write (collaborators := reference) (CPrim (Js.Num 0)) polling_42
  = (tt, polling_42, [Done None])
  /\ ~ (forall (s : State) (chunk : Chunk),
          chunk <> CPrim Js.Undefined ->
          chunk <> CPrim Js.Null ->
          chunk <> CPrim (Js.Str "") ->
          exists text,
            filter is_sendMessage
              (trace_of (_write (collaborators := reference) chunk s))
            = [Api_sendMessage (chat_id s) text]).
Proof.
  split; [reflexivity|].
  intros H.
  specialize (H polling_42 (CPrim (Js.Num 0))
                ltac:(discriminate) ltac:(discriminate) ltac:(discriminate)).
  destruct H as (text & H). discriminate H.
Qed.

(** ** The further properties on concrete instances *)

Lemma construction_succeeds_exactly_when_witness :
  exists t s,
    TelegramLog (Config.TokenValue (Js.Str "token")) (Js.Num 42) (Some webhook_443)
    = (t, inr s).
Proof.
  apply (proj2 (construction_succeeds_exactly_when
                  (Js.Str "token") (Js.Num 42) (Some webhook_443))).
  split; [discriminate|].
  split; [reflexivity|]. split; [reflexivity|].
  right. right. left. exists 443. split; [reflexivity|].
  right. right. left. reflexivity.
Defined.

Lemma new_instance_is_idle_witness :
  existsb is_api_call
    [Api_new (Js.Str "token"); WebhookPost_create (Config.WPrim (Js.Num 443))]
  = false
  /\ _updatesOffset listening_443 = 0
  /\ inFlight listening_443 = false.
Proof.
  pose proof (new_instance_is_idle
                (Config.TokenValue (Js.Str "token")) (Js.Num 42) (Some webhook_443)
                _ listening_443 eq_refl) as (H1 & H2 & H3 & _).
  exact (conj H1 (conj H2 H3)).
Defined.

Lemma no_fetch_after_close_witness :
  existsb is_getUpdates
    (trace_of (run (collaborators := reference)
                 [Call_close; Fetch_settled (inr []); Timer_fired; Call_read]
                 (state_of (_read polling_42))))
  = false.
Proof.
  apply (no_fetch_after_close (collaborators := reference)
           [Fetch_settled (inr []); Timer_fired; Call_read]
           (state_of (_read polling_42))); reflexivity.
Defined.

Lemma webhook_instance_never_polls_witness :
  existsb is_getUpdates
    (trace_of (run (collaborators := reference)
                 [Call_read; Listener_data (text_update 1 42 "hi"); Timer_fired]
                 listening_443))
  = false.
Proof.
  apply (webhook_instance_never_polls (collaborators := reference)).
  discriminate.
Defined.

Lemma polling_instance_never_touches_the_webhook_witness :
  existsb is_webhook_effect
    (trace_of (run (collaborators := reference)
                 [Call_read; Fetch_settled (inr mixed_batch); Call_close; Call_close]
                 polling_42))
  = false.
Proof.
  apply (polling_instance_never_touches_the_webhook (collaborators := reference)
           [Call_read; Fetch_settled (inr mixed_batch); Call_close; Call_close]
           polling_42); reflexivity.
Defined.

Lemma messages_go_to_the_configured_chat_witness :
  In (Api_sendMessage (Js.Num 42) (Some (quote ++ "log line" ++ quote)%string))
     (trace_of (run (collaborators := reference)
                  [Call_read; Call_write (CPrim (Js.Str "log line"))] polling_42))
  /\ Js.Num 42 = chat_id polling_42.
Proof.
  assert (In (Api_sendMessage (Js.Num 42) (Some (quote ++ "log line" ++ quote)%string))
            (trace_of (run (collaborators := reference)
                         [Call_read; Call_write (CPrim (Js.Str "log line"))]
                         polling_42))) as Hin.
  { right. left. reflexivity. }
  split; [exact Hin|].
  exact (proj2 (messages_go_to_the_configured_chat (collaborators := reference)
                  [Call_read; Call_write (CPrim (Js.Str "log line"))] polling_42)
           _ _ Hin).
Defined.

Lemma setWebhook_carries_the_certificate_witness :
  In (Api_setWebhook None (Js.Str ""))
     (trace_of (run (collaborators := reference)
                  [Listener_open "https://example.com/"; Call_close] listening_443))
  /\ Js.Str "" = certificate listening_443.
Proof.
  assert (In (Api_setWebhook None (Js.Str ""))
            (trace_of (run (collaborators := reference)
                         [Listener_open "https://example.com/"; Call_close]
                         listening_443))) as Hin.
  { right. left. reflexivity. }
  split; [exact Hin|].
  exact (setWebhook_carries_the_certificate (collaborators := reference)
           _ listening_443 _ _ Hin).
Defined.

Lemma transports_agree_on_growing_updates_witness :
  fresh_increasing (_updatesOffset polling_42)
    [text_update 5 42 "a"; update_without_message 9]
  /\ _updatesOffset
       (state_of (gotUpdates (collaborators := reference)
                    [text_update 5 42 "a"; update_without_message 9] polling_42))
     = _updatesOffset
         (state_of (run (collaborators := reference)
                      (map Listener_data
                         [text_update 5 42 "a"; update_without_message 9])
                      polling_42)).
Proof.
  assert (fresh_increasing (_updatesOffset polling_42)
            [text_update 5 42 "a"; update_without_message 9]) as H.
  { cbn. lia. }
  split; [exact H|].
  exact (proj1 (proj2 (transports_agree_on_growing_updates
                         (collaborators := reference) _ polling_42 H))).
Defined.

Lemma next_fetch_is_past_every_update_witness :
  Api.update_id (update_without_message 9) < 10.
Proof.
  apply (next_fetch_is_past_every_update (collaborators := reference)
           [Call_read; Fetch_settled (inr mixed_batch)] polling_42
           (update_without_message 9) 10 15 0).
  - repeat constructor; reflexivity.
  - right. left. reflexivity.
  - left. reflexivity.
Defined.

Lemma failed_fetch_is_not_retried_witness :
  trace_of (run (collaborators := reference)
              [Call_read; Fetch_settled (inl "timeout"); Call_read] polling_42)
  = [Api_getUpdates 0 16 0; Emit_error_from "timeout"; Api_getUpdates 0 16 0].
Proof.
  apply (proj2 (failed_fetch_is_not_retried (collaborators := reference)
                  "timeout" polling_42 eq_refl
                  ltac:(vm_compute; intro H; discriminate H) eq_refl
                  ltac:(intro H; discriminate H) eq_refl)).
Defined.

Lemma close_waits_for_the_pending_fetch_witness :
  trace_of (run (collaborators := reference)
              [Call_read; Call_close; Fetch_settled (inr [text_update 1 42 "hi"])]
              polling_42)
  = trace_of (run (collaborators := reference)
                [Call_read; Fetch_settled (inr [text_update 1 42 "hi"])] polling_42)
    ++ [Push None].
Proof.
  apply (proj2 (close_waits_for_the_pending_fetch (collaborators := reference)
                  (inr [text_update 1 42 "hi"]) polling_42 eq_refl
                  ltac:(vm_compute; intro H; discriminate H) eq_refl
                  ltac:(intro H; discriminate H) eq_refl)).
Defined.

Lemma empty_batch_keeps_polling_witness :
  trace_of (run (collaborators := reference)
              [Call_read; Fetch_settled (inr []); Timer_fired] polling_42)
  = [Api_getUpdates 0 16 0; SetTimeout_read 1000; Api_getUpdates 0 16 0].
Proof.
  apply (empty_batch_keeps_polling (collaborators := reference) polling_42 eq_refl
           ltac:(vm_compute; intro H; discriminate H) eq_refl
           ltac:(intro H; discriminate H) eq_refl).
Defined.

Lemma webhook_close_sequence_witness :
  trace_of (run (collaborators := reference)
              [Call_close; Unregister_settled 0; Listener_end; Call_close]
              listening_443)
  = [Api_setWebhook None (Js.Str ""); WebhookPost_close; Push None].
Proof.
  apply (proj1 (proj2 (proj2 (webhook_close_sequence (collaborators := reference)
                                listening_443 eq_refl eq_refl)))).
Defined.

Lemma listener_end_unregisters_first_witness :
  trace_of (run (collaborators := reference)
              [Listener_end; Call_close; Unregister_settled 0] listening_443)
  = [Api_setWebhook None (Js.Str ""); Push None]
  /\ trace_of (run (collaborators := reference) [Listener_end]
                 (set_webhook (WRaw Js.Null) listening_443))
     = [Push None].
Proof.
  split.
  - apply (proj2 (proj1 (listener_end_unregisters_first (collaborators := reference)
                           listening_443) eq_refl eq_refl)).
  - apply (proj2 (listener_end_unregisters_first (collaborators := reference)
                    (set_webhook (WRaw Js.Null) listening_443)) eq_refl).
Defined.

Lemma polling_ends_at_most_once_witness :
  (count_ends
     (trace_of (run (collaborators := reference)
                  [Call_read; Call_close; Fetch_settled (inr mixed_batch);
                   Call_close; Call_read] polling_42))
   <= 1)%nat.
Proof.
  apply (polling_ends_at_most_once (collaborators := reference)
           [Call_read; Call_close; Fetch_settled (inr mixed_batch);
            Call_close; Call_read] polling_42).
  - reflexivity.
  - split; [reflexivity|exact I].
Defined.

Lemma second_close_does_nothing_when_polling_witness :
  run (collaborators := reference) [Call_close; Call_close]
    (state_of (_read polling_42))
  = run (collaborators := reference) [Call_close] (state_of (_read polling_42)).
Proof.
  apply (second_close_does_nothing_when_polling (collaborators := reference)).
  reflexivity.
Defined.

Lemma webhook_redelivery_is_ignored_witness :
  run (collaborators := reference)
    [Listener_data (text_update 1 42 "hi"); Listener_data (text_update 1 42 "hi")]
    listening_443
  = run (collaborators := reference) [Listener_data (text_update 1 42 "hi")]
      listening_443.
Proof.
  apply (webhook_redelivery_is_ignored (collaborators := reference)).
  split; reflexivity.
Defined.
